(** * bqwrapper: a shallow embedding of the loader and dumper data paths

    The Go package [bqwrapper] (files [core.go] and [types.go]) wraps the
    BigQuery client: [Load] uploads a file and polls the load job, [Dump]
    runs a query, pages through the rows, decodes the cells and writes a
    JSON or CSV file.  This development embeds the functions of [core.go]
    as Rocq functions and states the properties of the specification
    about them.

    Conventions.
    - A Go function that returns [(T, error)] becomes a function into
      [outcome T], which also has a [Panic] case for run-time panics
      (index out of range, failed type assertion).
    - Calls to the remote service and to the file system are explicit
      arguments (oracles) and explicit state; loops that wait for the
      service take a fuel argument.
    - Go strings are byte strings: [string] with one [ascii] per byte. *)

From Stdlib Require Import ZArith NArith Ascii String List Lia.
From stdpp Require Import base option list sorting strings pretty gmap fin_maps.

Set Warnings "-register-all".
Set Default Proof Using "Type".

Open Scope string_scope.
Open Scope list_scope.

(** ** Errors and results *)

(** The two failure kinds of the [strconv] parsers. *)
Inductive numErr := ErrSyntax | ErrRange.

(** Go [error] values.  Every [errors.New] and [fmt.Errorf] site of
    [core.go] has its constructor, holding the arguments of the format. *)
Inductive error :=
  | NoParameters                        (* "no paramters" *)
  | UnsupportedOutputFormat             (* "Unsupported output file format" *)
  | NoSchema                            (* "Error getting reply, no schema data returned" *)
  | External (msg : string)             (* an error made by a library call *)
  | Wrapped (context : string) (cause : error)   (* "<context> - %s" *)
  | ErrorsReturned (n : nat)            (* "%d errors returned" *)
  | UnknownJobStatus (state pid jid : string)
      (* "Unknown job status returned - %s (%s,%s)" *)
  | NumError (func input : string) (kind : numErr)
      (* strconv.NumError{Func, Num, Err} *)
  | InvalidValue (name raw : string) (cause : error)
      (* "Invalid %s value (%s) - %s" *)
  | UnsupportedFieldType (ftype name : string).
      (* "Unsupported field type %s on %s" *)

Inductive outcome (A : Type) :=
  | Ok (a : A)
  | Err (e : error)
  | Panic.
Arguments Ok {A} a.
Arguments Err {A} e.
Arguments Panic {A}.

(** Sequencing: an error or a panic ends the function.  The instances
    give the notation [x ← r; k]. *)
#[export] Instance result_ret : MRet outcome := fun _ a => Ok a.
#[export] Instance result_bind : MBind outcome := fun _ _ k r =>
  match r with
  | Ok a => k a
  | Err e => Err e
  | Panic => Panic
  end.

(** Membership in a list that is written out. *)
Ltac in_list := 
  repeat first [apply list_elem_of_here | apply list_elem_of_further].

(** ** Schema flattening: [walkFields] *)

(** [bigquery.TableFieldSchema], with the members [core.go] reads. *)
Inductive TableFieldSchema := mkField {
  Name : string;
  Type_ : string;
  Fields : list TableFieldSchema
}.

(** [types.go]: [fieldType]. *)
Record fieldType := mkFieldType { name : string; ftype : string }.

(** [walkFields prefix schema].  The loop over [schema.Fields] returns in
    its first iteration, so only the head of the list is visited; the
    recursive call passes the nested field's own name as prefix. *)
Fixpoint walkFields (prefix : string) (schema : TableFieldSchema)
  : string * string :=
  match schema with
  | mkField sname stype sfields =>
    if negb (String.eqb stype "RECORD") then
      if String.eqb prefix "" then (sname, stype)
      else (prefix +:+ "." +:+ sname, stype)
    else
      match sfields with
      | field :: _ => walkFields (Name field) field
      | [] => ("", "")
      end
  end.

(** The first loop of [toRows]: one [fieldType] per top-level field. *)
Definition fieldNames (fields : list TableFieldSchema) : list fieldType :=
  map (fun field => let '(n, t) := walkFields "" field in mkFieldType n t)
      fields.

(** ** The [strconv] parsers used by [toRows]

    [strconv.ParseInt(s, 10, 64)] after the Go library: an optional sign,
    then [ParseUint] on the rest, which reads decimal digits from the
    left, fails with a syntax error at the first byte that is no digit and
    with a range error as soon as the value leaves 64 bits; [ParseInt] then
    checks the signed range. *)

Definition maxUint64 : Z := 2 ^ 64 - 1.
Definition cutoff64 : Z := maxUint64 / 10 + 1.

Definition isDigit (c : ascii) : bool :=
  let n := Z.of_N (N_of_ascii c) in (48 <=? n)%Z && (n <=? 57)%Z.

Fixpoint parseUintLoop (s : string) (n : Z) : Z + numErr :=
  match s with
  | EmptyString => inl n
  | String c rest =>
    if isDigit c then
      let d := (Z.of_N (N_of_ascii c) - 48)%Z in
      if (cutoff64 <=? n)%Z then inr ErrRange
      else
        let n1 := (n * 10 + d)%Z in
        if (maxUint64 <? n1)%Z then inr ErrRange
        else parseUintLoop rest n1
    else inr ErrSyntax
  end.

Definition ParseUint (s : string) : Z + numErr :=
  match s with
  | EmptyString => inr ErrSyntax
  | _ => parseUintLoop s 0
  end.

Definition ParseInt (s : string) : Z + numErr :=
  match s with
  | EmptyString => inr ErrSyntax
  | String c rest =>
    let '(neg, digits) :=
      if Ascii.eqb c "+" then (false, rest)
      else if Ascii.eqb c "-" then (true, rest)
      else (false, s) in
    match ParseUint digits with
    | inr ErrSyntax => inr ErrSyntax
    | r =>
      (* on a range error [ParseUint] returns the largest value *)
      let un := match r with inl u => u | inr _ => maxUint64 end in
      let cutoff := (2 ^ 63)%Z in
      if negb neg && (cutoff <=? un)%Z then inr ErrRange
      else if neg && (cutoff <? un)%Z then inr ErrRange
      else inl (if neg then (- un)%Z else un)
    end
  end.

(** [strconv.ParseBool]. *)
Definition ParseBool (s : string) : bool + numErr :=
  if bool_decide (s ∈ ["1"; "t"; "T"; "TRUE"; "true"; "True"]) then inl true
  else if bool_decide (s ∈ ["0"; "f"; "F"; "FALSE"; "false"; "False"])
  then inl false
  else inr ErrSyntax.

(** ** Job polling: [jobDone] and the loop at the end of [Load] *)

(** [bigquery.JobStatus] and [bigquery.Job], with the members read. *)
Record JobStatus := mkStatus { State : string; StatusErrors : list string }.
Record Job := mkJob { Status : option JobStatus }.

(** [jobDone].  [res] is what [bq.Jobs.Get(pid, jid).Do()] returned. *)
Definition jobDone (res : Job + error) (pid jid : string) : outcome bool :=
  match res with
  | inr err => Err err
  | inl job =>
    match Status job with
    | None => Panic                      (* nil pointer dereference *)
    | Some st =>
      if negb (length (StatusErrors st) =? 0)%nat then
        Err (ErrorsReturned (length (StatusErrors st)))
      else if String.eqb (State st) "PENDING"
              || String.eqb (State st) "RUNNING" then Ok false
      else if String.eqb (State st) "DONE" then Ok true
      else Err (UnknownJobStatus (State st) pid jid)
    end
  end.


(** The loop [for { select { case <-tick.C: ... } }] of [Load].  Every
    iteration waits for a tick and polls once; [jobsGet k] is the answer
    to poll number [k].  The loop has no exit besides the two [return]s:
    [None] says that it is still running after [fuel] ticks, [Some (n, r)]
    that it returned [r] at tick [n]. *)
Fixpoint waitJob (fuel : nat) (jobsGet : nat -> Job + error)
    (pid jid : string) (k : nat) : option (nat * outcome unit) :=
  match fuel with
  | O => None
  | S fuel' =>
    match jobDone (jobsGet k) pid jid with
    | Err err => Some (S k, Err err)
    | Panic => Some (S k, Panic)
    | Ok true => Some (S k, Ok ())
    | Ok false => waitJob fuel' jobsGet pid jid (S k)
    end
  end.

(** What the loop returns for the value of the poll that ends it. *)
Definition pollResult (r : outcome bool) : outcome unit :=
  match r with
  | Ok _ => Ok ()
  | Err e => Err e
  | Panic => Panic
  end.

(** ** Dataset ensure: [datasetCreateIfNotExists] *)

(** [bigquery.DatasetList]: the dataset ids of one page and the token of
    the next page. *)
Record DatasetList := mkDatasetList {
  Datasets : list string;
  NextPageToken : string
}.

(** The remote service as seen by the function, for one project: a
    state, the answer to a list request (without a page token, or with
    one) and the effect of and answer to an insert request. *)
Record Warehouse (S : Type) := mkWarehouse {
  listDo : S -> option string -> DatasetList + error;
  insertDo : S -> string -> S * option error
}.
Arguments listDo {S} _ _ _.
Arguments insertDo {S} _ _ _.

Definition hasDataset (datasetID : string) (res : DatasetList) : bool :=
  bool_decide (datasetID ∈ Datasets res).

(** The loop [for token != ""]: [Ok true] when the dataset was found,
    [Ok false] when the pages ended without it. *)
Fixpoint searchPages {S} (fuel : nat) (w : Warehouse S) (s : S)
    (datasetID token : string) : option (outcome bool) :=
  match fuel with
  | O => None
  | S fuel' =>
    if String.eqb token "" then Some (Ok false)
    else
      match listDo w s (Some token) with
      | inr err => Some (Err err)
      | inl res =>
        if hasDataset datasetID res then Some (Ok true)
        else searchPages fuel' w s datasetID (NextPageToken res)
      end
  end.

(** [datasetCreateIfNotExists]: the state of the service afterwards, the
    dataset ids of the creation calls made, and the value returned. *)
Definition datasetCreateIfNotExists {S} (fuel : nat) (w : Warehouse S) (s : S)
    (datasetID : string) : option (S * list string * outcome unit) :=
  match listDo w s None with
  | inr err => Some (s, [], Err (Wrapped "Error checking datasets" err))
  | inl res =>
    if hasDataset datasetID res then Some (s, [], Ok ())
    else
      match searchPages fuel w s datasetID (NextPageToken res) with
      | None => None
      | Some (Err err) => Some (s, [], Err err)
      | Some Panic => Some (s, [], Panic)
      | Some (Ok true) => Some (s, [], Ok ())
      | Some (Ok false) =>
        match insertDo w s datasetID with
        | (s', Some err) => Some (s', [datasetID], Err err)
        | (s', None) => Some (s', [datasetID], Ok ())
        end
      end
  end.

(** Two calls in a row; the creation calls of both. *)
Definition ensureTwice {S} (fuel : nat) (w : Warehouse S) (s : S)
    (datasetID : string)
  : option (S * list string * outcome unit * outcome unit) :=
  match datasetCreateIfNotExists fuel w s datasetID with
  | None => None
  | Some (s1, calls1, r1) =>
    match datasetCreateIfNotExists fuel w s1 datasetID with
    | None => None
    | Some (s2, calls2, r2) => Some (s2, calls1 ++ calls2, r1, r2)
    end
  end.

(** The whole listing of a project: the pages met by following the page
    tokens from the first request, when no request fails. *)
Fixpoint pagesFrom {S} (fuel : nat) (w : Warehouse S) (s : S)
    (token : option string) : option (list DatasetList) :=
  match fuel with
  | O => None
  | S fuel' =>
    match listDo w s token with
    | inr _ => None
    | inl res =>
      if String.eqb (NextPageToken res) "" then Some [res]
      else (res ::.) <$> pagesFrom fuel' w s (Some (NextPageToken res))
    end
  end.

Definition listed (datasetID : string) (pages : list DatasetList) : Prop :=
  Exists (fun res => datasetID ∈ Datasets res) pages.

(** A service that lists no dataset and refuses every creation. *)
Definition refusing : Warehouse unit :=
  mkWarehouse unit
    (fun _ _ => inl (mkDatasetList [] ""))
    (fun s _ => (s, Some (External "Access Denied"))).

(** A service that keeps its datasets in a list, shows the first one on
    the first page and the others on a second page, and appends a created
    dataset. *)
Definition twoPages : Warehouse (list string) :=
  mkWarehouse (list string)
    (fun s token =>
       match token with
       | None => inl (mkDatasetList (take 1 s)
                        (if (length s <=? 1)%nat then "" else "next"))
       | Some _ => inl (mkDatasetList (drop 1 s) "")
       end)
    (fun s datasetID => (s ++ [datasetID], None)).

(** ** The loader: [types.go] and [Load] *)

Module Loader.

(** [types.go]: the schema descriptor and the job configuration sent with
    the first request.  ([TableField]'s nested [Fields] is [Nested] here,
    the name [Fields] being taken by [Schema].) *)
Inductive TableField := mkTableField {
  Name : string;
  Type_ : string;
  Mode : string;
  Nested : list TableField
}.

Record Schema := mkSchema { Fields : list TableField }.

Record Destination := mkDestination {
  ProjectID : string;
  DatasetID : string;
  TableID : string
}.

Record jobLoadConf := mkJobLoadConf {
  Format : string;
  Schema_ : Schema;
  Destination_ : Destination
}.

Record jobMainConf := mkJobMainConf { Load_ : jobLoadConf }.
Record jobConf := mkJobConf { Conf : jobMainConf }.

Record ErrorMessage := mkErrorMessage { Message : string }.
Record ErrorResponse := mkErrorResponse { Error : ErrorMessage }.

(** [http.Request] and [http.Response], with what [Load] sets and reads.
    [Location] is the result of [res.Location()], [Body] the result of
    reading the body to its end. *)
Record Request := mkRequest {
  Method : string;
  URL : string;
  Header : list (string * string);
  ReqBody : string
}.

Record Response := mkResponse {
  StatusCode : Z;
  Status : string;
  Location : string + error;
  Body : string + error
}.

Definition StatusOK : Z := 200.

(** Everything outside the process, for one call of [Load]: the files,
    the construction of the client from the key file's bytes
    ([google.JWTConfigFromJSON]), the dataset service, the JSON codec
    for the three structures that cross it, [http.NewRequest] (which
    refuses a malformed URL), the HTTP client (whose answer may depend on
    the requests made before) and the answers to the status polls. *)
Record World (S : Type) := mkWorld {
  readFile : string -> string + error;
  jwtConfigFromJSON : string -> option error;
  warehouse : Warehouse S;
  unmarshalFields : string -> list TableField + error;
  marshalConf : jobConf -> string + error;
  newRequest : string -> string -> option error;
  clientDo : list Request -> Request -> Response + error;
  decodeErrorResponse : string -> ErrorResponse;
  unmarshalJob : string -> option (string * string) + error;
  jobsGet : nat -> Job + error
}.
Arguments readFile {S} _ _.
Arguments jwtConfigFromJSON {S} _ _.
Arguments warehouse {S} _.
Arguments unmarshalFields {S} _ _.
Arguments marshalConf {S} _ _.
Arguments newRequest {S} _ _ _.
Arguments clientDo {S} _ _ _.
Arguments decodeErrorResponse {S} _ _.
Arguments unmarshalJob {S} _ _.
Arguments jobsGet {S} _ _.

(** What [Load] does to the world, in order: the environment variable
    set, the files read, the dataset creation calls, the HTTP requests
    sent, and the status polls (their number, when the loop returns). *)
Inductive event :=
  | Setenv (key value : string)
  | ReadFile (path : string)
  | CreateDataset (datasetID : string)
  | Do (req : Request)
  | Polled (ticks : nat).

(** A computation that leaves a trace and returns, fails or panics, or
    is still waiting for the service ([None]). *)
Definition traced (A : Type) : Type := option (list event * outcome A).

#[export] Instance traced_ret : MRet traced := fun _ a => Some ([], Ok a).
#[export] Instance traced_bind : MBind traced := fun _ _ k m =>
  match m with
  | None => None
  | Some (t, Ok a) =>
    match k a with
    | None => None
    | Some (t', r) => Some (t ++ t', r)
    end
  | Some (t, Err e) => Some (t, Err e)
  | Some (t, Panic) => Some (t, Panic)
  end.

Definition emit (ev : event) : traced unit := Some ([ev], Ok ()).
Definition fail {A} (e : error) : traced A := Some ([], Err e).
Definition panic {A} : traced A := Some ([], Panic).

(** [if err != nil { return err }] and
    [if err != nil { return fmt.Errorf("<context> - %s", err) }]. *)
Definition orFail {A} (r : A + error) : traced A :=
  match r with inl a => mret a | inr err => fail err end.
Definition orWrap {A} (context : string) (r : A + error) : traced A :=
  match r with inl a => mret a | inr err => fail (Wrapped context err) end.
Definition noErr (r : option error) : traced unit :=
  match r with None => mret () | Some err => fail err end.
Definition noErrWrap (context : string) (r : option error) : traced unit :=
  match r with None => mret () | Some err => fail (Wrapped context err) end.

(** [strings.HasSuffix]: [s] ends with [suffix]. *)
Fixpoint HasSuffix (s suffix : string) : bool :=
  if String.eqb s suffix then true
  else match s with
       | EmptyString => false
       | String _ rest => HasSuffix rest suffix
       end.

(** The [switch] on the name of the source file. *)
Definition sourceFormat (sourceFile : string) : string + error :=
  if HasSuffix sourceFile ".json" then inl "NEWLINE_DELIMITED_JSON"
  else if HasSuffix sourceFile ".csv" then inl "CSV"
  else inr (External "Unsupported source file format").

(** [oauthClient]: the key file is read and parsed; both errors are
    returned as they are. *)
Definition oauthClient {S} (w : World S) (jwtFile : string) : traced unit :=
  _ ← emit (ReadFile jwtFile);
  by_ ← orFail (readFile w jwtFile);
  noErr (jwtConfigFromJSON w by_).

(** The call of [datasetCreateIfNotExists] with its creation calls as
    events. *)
Definition ensureDataset {S} (fuel : nat) (w : World S) (s : S)
    (datasetID : string) : traced unit :=
  match datasetCreateIfNotExists fuel (warehouse w) s datasetID with
  | None => None
  | Some (_, calls, Ok _) => Some (CreateDataset <$> calls, Ok ())
  | Some (_, calls, Err err) =>
    Some (CreateDataset <$> calls,
          Err (Wrapped "Error checking/creating dataset" err))
  | Some (_, calls, Panic) => Some (CreateDataset <$> calls, Panic)
  end.

(** The first request: the job configuration, with the size of the data
    announced in a header. *)
Definition uploadURL (projectID : string) : string :=
  "https://www.googleapis.com/upload/bigquery/v2/projects/" +:+ projectID
  +:+ "/jobs?uploadType=resumable".

Definition initRequest (projectID confBytes data : string) : Request :=
  mkRequest "POST" (uploadURL projectID)
    [("X-Upload-Content-Type", "application/json");
     ("X-Upload-Content-Length", pretty (String.length data));
     ("Content-Length", pretty (String.length confBytes));
     ("Content-Type", "application/json")]
    confBytes.

(** The second request: the data, to the location the first answer
    names. *)
Definition dataRequest (loc data : string) : Request :=
  mkRequest "POST" loc [] data.

(** The loop at the end of [Load]. *)
Definition pollJob {S} (fuel : nat) (w : World S) (projectID job : string)
  : traced unit :=
  match waitJob fuel (jobsGet w) projectID job 0 with
  | None => None
  | Some (ticks, r) => Some ([Polled ticks], r)
  end.

(** [Load].  [bigquery.New] fails for a nil client only, and
    [oauthClient] returns none. *)
Definition Load {S} (fuel : nat) (w : World S) (s : S)
    (projectID datasetID tableID jwtFile schemaFile sourceFile proxy : string)
  : traced unit :=
  if String.eqb projectID "" || String.eqb datasetID ""
     || String.eqb tableID "" || String.eqb jwtFile ""
     || String.eqb schemaFile "" || String.eqb sourceFile ""
  then fail (External "missing params")
  else
    format ← orFail (sourceFormat sourceFile);
    _ ← (if negb (String.eqb proxy "") then emit (Setenv "HTTP_PROXY" proxy)
         else mret ());
    _ ← oauthClient w jwtFile;
    _ ← ensureDataset fuel w s datasetID;
    _ ← emit (ReadFile schemaFile);
    by_ ← orWrap "Error reading schema" (readFile w schemaFile);
    fields ← orWrap "Error reading schema" (unmarshalFields w by_);
    let bqConf :=
      mkJobConf (mkJobMainConf (mkJobLoadConf format (mkSchema fields)
        (mkDestination projectID datasetID tableID))) in
    confBytes ← orFail (marshalConf w bqConf);
    _ ← emit (ReadFile sourceFile);
    data ← orFail (readFile w sourceFile);
    _ ← noErrWrap "Error creating initial request"
          (newRequest w "POST" (uploadURL projectID));
    let req := initRequest projectID confBytes data in
    _ ← emit (Do req);
    res ← orWrap "error in intial request" (clientDo w [] req);
    if negb (StatusCode res =? StatusOK)%Z then
      let errRes :=
        match Body res with
        | inl body => decodeErrorResponse w body
        | inr _ => mkErrorResponse (mkErrorMessage "")
        end in
      fail (External ("did not get OK, got " +:+ Status res +:+ " ("
                      +:+ Message (Error errRes) +:+ ")"))
    else
      loc ← orWrap "error getting Location header" (Location res);
      _ ← noErrWrap "Error creating request" (newRequest w "POST" loc);
      let req2 := dataRequest loc data in
      _ ← emit (Do req2);
      res2 ← orWrap "Error in response" (clientDo w [req] req2);
      if negb (StatusCode res2 =? StatusOK)%Z then
        fail (External ("Did not get OK, got " +:+ Status res2))
      else
        r ← orWrap "Error reading response" (Body res2);
        response ← orWrap "Error decoding response" (unmarshalJob w r);
        match response with
        | None => panic                      (* nil pointer dereference *)
        | Some (jobProject, job) =>
          if negb (String.eqb jobProject projectID) then
            fail (External ("Returned ProjectID " +:+ jobProject
                            +:+ " != configured ID " +:+ projectID))
          else pollJob fuel w projectID job
        end.

(** What a trace holds of each kind of effect. *)
Definition requestsOf (trace : list event) : list Request :=
  omap (fun ev => match ev with Do req => Some req | _ => None end) trace.
Definition pollsOf (trace : list event) : list nat :=
  omap (fun ev => match ev with Polled n => Some n | _ => None end) trace.
Definition createdOf (trace : list event) : list string :=
  omap (fun ev => match ev with CreateDataset d => Some d | _ => None end)
       trace.
Definition filesOf (trace : list event) : list string :=
  omap (fun ev => match ev with ReadFile f => Some f | _ => None end) trace.
Definition envOf (trace : list event) : list (string * string) :=
  omap (fun ev => match ev with Setenv k v => Some (k, v) | _ => None end)
       trace.

(** The configuration [bqConf] built by [Load]. *)
Definition jobConfOf (format : string) (fields : list TableField)
    (projectID datasetID tableID : string) : jobConf :=
  mkJobConf (mkJobMainConf (mkJobLoadConf format (mkSchema fields)
    (mkDestination projectID datasetID tableID))).

(** The effects of a call that gets as far as the first request: the
    proxy when one is given, the key file, the creation calls [calls] of
    the dataset step, the schema file and the source file. *)
Definition loadPrefix (proxy jwtFile : string) (calls : list string)
    (schemaFile sourceFile : string) : list event :=
  (if String.eqb proxy "" then [] else [Setenv "HTTP_PROXY" proxy])
  ++ ReadFile jwtFile :: (CreateDataset <$> calls)
  ++ [ReadFile schemaFile; ReadFile sourceFile].

End Loader.

(** ** Sample inputs

    Concrete services and library functions on which the definitions can
    be run. *)

(** A load job that is pending, then running, then done. *)
Definition sampleJobs (k : nat) : Job + error :=
  match k with
  | 0%nat => inl (mkJob (Some (mkStatus "PENDING" [])))
  | 1%nat => inl (mkJob (Some (mkStatus "RUNNING" [])))
  | _ => inl (mkJob (Some (mkStatus "DONE" [])))
  end.

(** The schema with a RECORD column used for [walkFields]. *)
Definition nestedSchema : TableFieldSchema :=
  mkField "a" "RECORD" [mkField "b" "STRING" []; mkField "c" "FLOAT" []].

Definition sampleSchema : list TableFieldSchema :=
  [mkField "id" "INTEGER" []; mkField "name" "STRING" []].

(** Stand-ins for the library: a float parser and printer that know the
    integral values only, a CSV field writer for fields that need no
    quotes, and a JSON encoder for the empty list. *)
Definition integralParseFloat : string -> Z + numErr := ParseInt.
Definition integralFormatFloat : Z -> string := pretty.
Definition noComposite : Empty_set -> string := fun o => match o with end.
Definition plainField : N -> string -> string := fun _ field => field.
Definition constantJSON {A} : A -> string + error := fun _ => inl "[]".

(** A world in which a load succeeds: the three files exist, the service
    is [twoPages], the first request is answered with an upload location
    and the second with the job, which is then polled as [sampleJobs]. *)
Definition sampleWorld : Loader.World (list string) :=
  Loader.mkWorld (list string)
    (fun path =>
       if String.eqb path "key.json" then inl "{key}"
       else if String.eqb path "schema.json" then inl "[fields]"
       else if String.eqb path "rows.csv" then inl "1,ann"
       else inr (External "no such file"))
    (fun _ => None)
    twoPages
    (fun _ => inl [Loader.mkTableField "id" "INTEGER" "" [];
                   Loader.mkTableField "name" "STRING" "" []])
    (fun _ => inl "{configuration}")
    (fun _ _ => None)
    (fun before _ =>
       match before with
       | [] => inl (Loader.mkResponse 200 "200 OK" (inl "https://upload/session")
                      (inl ""))
       | _ => inl (Loader.mkResponse 200 "200 OK" (inr (External "no Location"))
                     (inl "{job}"))
       end)
    (fun _ => Loader.mkErrorResponse (Loader.mkErrorMessage ""))
    (fun _ => inl (Some ("p", "job_1")))
    sampleJobs.

(** The trace of a load in [sampleWorld] that succeeds at the third
    poll. *)
Definition sampleTrace : list Loader.event :=
  Loader.loadPrefix "" "key.json" ["logs"] "schema.json" "rows.csv"
  ++ [Loader.Do (Loader.initRequest "p" "{configuration}" "1,ann");
      Loader.Do (Loader.dataRequest "https://upload/session" "1,ann");
      Loader.Polled 3].

(** ** Cell decoding: [toRows] *)

Section Dumper.

(** Values of Go's [float64], with the library's parser and printer, and
    the values a JSON cell can hold besides [nil] and a string (the
    objects and arrays of nested and repeated columns), with their
    printer. *)
Context {float64 composite : Type}.
Variable ParseFloat : string -> float64 + numErr.
Variable FormatFloat : float64 -> string.
Variable FormatComposite : composite -> string.

(** The dynamic value [V] of a [bigquery.TableCell]. *)
Inductive cellValue :=
  | CNil
  | CString (s : string)
  | CComposite (o : composite).

(** The [interface{}] values stored in a record. *)
Inductive value :=
  | VNil
  | VString (s : string)
  | VInt (i : Z)
  | VFloat (f : float64)
  | VBool (b : bool)
  | VComposite (o : composite).

(** A row is the list [row.F] of its cells. *)
Definition TableRow := list cellValue.

(** [cell.V] stored as it is. *)
Definition ofCell (v : cellValue) : value :=
  match v with
  | CNil => VNil
  | CString s => VString s
  | CComposite o => VComposite o
  end.

(** [cell.V.(string)]: panics unless the value is a string. *)
Definition assertString (v : cellValue) : outcome string :=
  match v with
  | CString s => Ok s
  | _ => Panic
  end.

Definition parseWith {A} (func : string) (parse : string -> A + numErr)
    (fname raw : string) : outcome A :=
  match parse raw with
  | inl a => Ok a
  | inr k => Err (InvalidValue fname raw (NumError func raw k))
  end.

(** The body of the inner loop of [toRows] for cell [i] of a row. *)
Definition decodeCell (names : list fieldType) (i : nat) (cell : cellValue)
    (result : gmap string value) : outcome (gmap string value) :=
  match names !! i with
  | None => Panic
  | Some ft =>
    match cell with
    | CNil => Ok (<[name ft := VNil]> result)
    | _ =>
      if String.eqb (ftype ft) "STRING" then
        Ok (<[name ft := ofCell cell]> result)
      else if String.eqb (ftype ft) "INTEGER"
              || String.eqb (ftype ft) "TIMESTAMP" then
        raw ← assertString cell;
        ival ← parseWith "ParseInt" ParseInt (name ft) raw;
        Ok (<[name ft := VInt ival]> result)
      else if String.eqb (ftype ft) "FLOAT" then
        raw ← assertString cell;
        fval ← parseWith "ParseFloat" ParseFloat (name ft) raw;
        Ok (<[name ft := VFloat fval]> result)
      else if String.eqb (ftype ft) "BOOLEAN" then
        raw ← assertString cell;
        bval ← parseWith "ParseBool" ParseBool (name ft) raw;
        Ok (<[name ft := VBool bval]> result)
      else Err (UnsupportedFieldType (ftype ft) (name ft))
    end
  end.

(** The inner loop: the cells of one row, from index [i] on. *)
Fixpoint decodeCells (names : list fieldType) (i : nat) (cells : TableRow)
    (result : gmap string value) : outcome (gmap string value) :=
  match cells with
  | [] => Ok result
  | cell :: rest =>
    result' ← decodeCell names i cell result;
    decodeCells names (S i) rest result'
  end.

(** The outer loop: one record per row, appended to [results]. *)
Fixpoint decodeRows (names : list fieldType) (rows : list TableRow)
    (results : list (gmap string value)) : outcome (list (gmap string value)) :=
  match rows with
  | [] => Ok results
  | row :: rest =>
    r ← decodeCells names 0 row ∅;
    decodeRows names rest (results ++ [r])
  end.

Definition toRows (fields : list TableFieldSchema) (rows : list TableRow)
  : outcome (list (gmap string value)) :=
  decodeRows (fieldNames fields) rows [].

(** ** Output: the file system and the two writers *)

(** Effects on the file system, in the order they happen.  [FsCreate]
    is [os.Create] (the file exists and is empty afterwards), [FsAppend]
    the bytes that reached the file, [FsRemove] is [os.Remove]. *)
Inductive fsOp :=
  | FsCreate (path : string)
  | FsAppend (path : string) (data : string)
  | FsRemove (path : string).

Definition applyOp (fs : gmap string string) (op : fsOp) : gmap string string :=
  match op with
  | FsCreate p => <[p := ""]> fs
  | FsAppend p d => <[p := default "" (fs !! p) +:+ d]> fs
  | FsRemove p => delete p fs
  end.

Definition applyOps (fs : gmap string string) (ops : list fsOp)
  : gmap string string := foldl applyOp fs ops.

(** What the file system does to this call: [os.Create] may fail, and a
    write may fail after [n] bytes have reached the file. *)
Record faults := mkFaults {
  createErr : option error;
  writeErr : option (nat * error)
}.

Definition noFaults : faults := mkFaults None None.

Definition takeBytes (n : nat) (s : string) : string := String.substring 0 n s.

(** A write of [data] to the open file [path]: the effect and the error. *)
Definition writeFile (flt : faults) (path data : string)
  : list fsOp * option error :=
  match writeErr flt with
  | None => ([FsAppend path data], None)
  | Some (n, e) => ([FsAppend path (takeBytes n data)], Some e)
  end.

(** [json.MarshalIndent(data, "", "\t")] and the marshalling done by
    [json.Encoder.Encode] (which appends a newline itself). *)
Variable MarshalIndent : list (gmap string value) -> string + error.
Variable Marshal : list (gmap string value) -> string + error.

Definition newline : string := String "010" "".

Definition dumpJSON (flt : faults) (data : list (gmap string value))
    (output : string) (pretty : bool) : list fsOp * outcome unit :=
  match createErr flt with
  | Some err => ([], Err err)
  | None =>
    if pretty then
      match MarshalIndent data with
      | inr err => ([FsCreate output], Err err)
      | inl by_ =>
        match writeFile flt output by_ with
        | (w, Some err) => (FsCreate output :: w ++ [FsRemove output], Err err)
        | (w, None) => (FsCreate output :: w, Ok ())
        end
      end
    else
      match Marshal data with
      | inr err => ([FsCreate output; FsRemove output], Err err)
      | inl by_ =>
        match writeFile flt output (by_ +:+ newline) with
        | (w, Some err) => (FsCreate output :: w ++ [FsRemove output], Err err)
        | (w, None) => (FsCreate output :: w, Ok ())
        end
      end
  end.

(** [fmt.Sprintf("%v", val)]. *)
Definition formatValue (val : value) : string :=
  match val with
  | VNil => "<nil>"
  | VString s => s
  | VInt i => pretty i
  | VFloat f => FormatFloat f
  | VBool b => if b then "true" else "false"
  | VComposite o => FormatComposite o
  end.

(** The order in which [range] visits the keys of a map is not fixed by
    Go: it is some enumeration of the keys. *)
Variable rangeKeys : gmap string value -> list string.
Hypothesis rangeKeys_perm : forall m, rangeKeys m ≡ₚ (map_to_list m).*1.

(** [sort.StringSlice.Sort]: increasing byte-wise order.  The order is
    total and antisymmetric, so the sorted list does not depend on the
    sorting algorithm. *)
Definition sortStrings (l : list string) : list string :=
  merge_sort String.le l.

(** Runes are code points. *)
Definition rune := N.

(** [utf8.ValidRune] and [csv.validDelim]. *)
Definition validRune (r : rune) : bool :=
  ((r <? 0xD800) || ((0xDFFF <? r) && (r <=? 0x10FFFF)))%N.

Definition validDelim (r : rune) : bool :=
  negb (r =? 0)%N && negb (r =? 34)%N && negb (r =? 13)%N
  && negb (r =? 10)%N && validRune r && negb (r =? 0xFFFD)%N.

Definition byteOf (n : N) : ascii := ascii_of_N (n mod 256).

(** [bufio.Writer.WriteRune]: the UTF-8 encoding of a rune. *)
Definition encodeRune (r : rune) : string :=
  (if r <? 0x80 then String (byteOf r) ""
   else if r <? 0x800 then
     String (byteOf (0xC0 + r / 64)) (String (byteOf (0x80 + r mod 64)) "")
   else if negb (validRune r) then
     String (byteOf 0xEF) (String (byteOf 0xBF) (String (byteOf 0xBD) ""))
   else if r <? 0x10000 then
     String (byteOf (0xE0 + r / 4096))
       (String (byteOf (0x80 + (r / 64) mod 64))
          (String (byteOf (0x80 + r mod 64)) ""))
   else
     String (byteOf (0xF0 + r / 262144))
       (String (byteOf (0x80 + (r / 4096) mod 64))
          (String (byteOf (0x80 + (r / 64) mod 64))
             (String (byteOf (0x80 + r mod 64)) ""))))%N.

(** The bytes [csv.Writer.Write] emits for one field under a given
    [Comma] (the field itself, quoted when it has to be). *)
Variable csvField : rune -> string -> string.

(** [csv.Writer.Write] for one record: the fields with [Comma] between
    them and a newline at the end. *)
Fixpoint joinFields (comma : rune) (record : list string) : string :=
  match record with
  | [] => ""
  | [field] => csvField comma field
  | field :: rest =>
    csvField comma field +:+ encodeRune comma +:+ joinFields comma rest
  end.

Definition csvRecord (comma : rune) (record : list string) : string :=
  joinFields comma record +:+ newline.

(** [csv.Writer.WriteAll]: every record in turn; an invalid [Comma] is
    refused at the first record, with nothing written. *)
Definition csvInvalidDelim : error := External "csv: invalid field or comment delimiter".

Definition csvText (comma : rune) (lines : list (list string)) : string :=
  foldr (fun l acc => csvRecord comma l +:+ acc) "" lines.

Definition csvWriteAll (comma : rune) (lines : list (list string))
  : string + error :=
  match lines with
  | [] => inl ""
  | _ =>
    if validDelim comma then inl (csvText comma lines)
    else inr csvInvalidDelim
  end.

(** The delimiter chosen at the end of [dumpCSV]: [csv.NewWriter] starts
    with a comma. *)
Definition csvComma (delim : string) : rune :=
  match delim with
  | EmptyString => 44%N
  | String c _ =>
    if String.eqb delim "tab" then 9%N else N_of_ascii c
  end.

(** One line of [lines]: the value of every field of [fields], or the
    empty string where the record has no such key. *)
Definition csvLine (fields : list string) (rows : gmap string value)
  : list string :=
  map (fun f => match rows !! f with
                | Some val => formatValue val
                | None => ""
                end) fields.

Definition csvFields (data0 : gmap string value) : list string :=
  sortStrings (rangeKeys data0).

Definition csvLines (data : list (gmap string value)) (printFields : bool)
  : outcome (list (list string)) :=
  match data with
  | [] => Panic                           (* data[0]: index out of range *)
  | data0 :: _ =>
    let fields := csvFields data0 in
    let lines := map (csvLine fields) data in
    Ok (if printFields then fields :: lines else lines)
  end.

Definition dumpCSV (flt : faults) (data : list (gmap string value))
    (output delim : string) (printFields : bool)
  : list fsOp * outcome unit :=
  match csvLines data printFields with
  | Panic => ([], Panic)
  | Err e => ([], Err e)
  | Ok lines =>
    match createErr flt with
    | Some err => ([], Err err)
    | None =>
      (* the error of [WriteAll] is dropped *)
      match csvWriteAll (csvComma delim) lines with
      | inr _ => ([FsCreate output], Ok ())
      | inl text =>
        (FsCreate output :: fst (writeFile flt output text), Ok ())
      end
    end
  end.

(** ** The query and its pages: [Dump] *)

(** [bigquery.QueryRequest] as [Dump] fills it. *)
Record QueryRequest := mkQueryRequest {
  Kind : string;
  Query : string;
  TimeoutMs : Z;
  UseQueryCache : option bool
}.

(** [bigquery.QueryResponse]; [TotalRows] is a [uint64], [JobReference]
    a pointer of which only [JobId] is read. *)
Record QueryResponse := mkQueryResponse {
  Errors : list string;
  TotalRows : Z;
  Rows : list TableRow;
  Schema : option (list TableFieldSchema);
  JobReference : option string;
  PageToken : string
}.

(** A [GetQueryResults] call and its response. *)
Record PageRequest := mkPageRequest {
  reqJobID : string;
  reqPageToken : string;
  reqStartIndex : Z
}.

Record PageResponse := mkPageResponse {
  pageErrors : list string;
  pageRows : list TableRow;
  pageToken : string
}.

(** The service during one call of [Dump]: whether the client can be
    built, the answer to the query, and the answer to every page
    request, which may depend on the requests made before. *)
Record BigQuery := mkBigQuery {
  clientErr : option error;
  queryDo : string -> QueryRequest -> QueryResponse + error;
  getQueryResults :
    list PageRequest -> string -> PageRequest -> PageResponse + error
}.

(** [int(total)] for a [uint64] on a 64-bit platform. *)
Definition toInt (u : Z) : Z :=
  (if u <? 2 ^ 63 then u else u - 2 ^ 64)%Z.

(** [strings.ToLower] on the ASCII letters.  The result is only compared
    with "json" and "csv", and no other letter has one of theirs as its
    lower case, so the comparison is the one of the code. *)
Definition lowerByte (c : ascii) : ascii :=
  let n := N_of_ascii c in
  if ((65 <=? n) && (n <=? 90))%N then ascii_of_N (n + 32) else c.

Fixpoint ToLower (s : string) : string :=
  match s with
  | EmptyString => EmptyString
  | String c rest => String (lowerByte c) (ToLower rest)
  end.

(** The loop [for int(total) != retrieved]: the requests made so far and
    the rows when it ends; [None] when it is still running after [fuel]
    tests of its condition. *)
Fixpoint collectRows (fuel : nat) (bq : BigQuery) (projectID jobID : string)
    (token : string) (total retrieved : Z) (rows : list TableRow)
    (reqs : list PageRequest)
  : option (list PageRequest * outcome (list TableRow)) :=
  match fuel with
  | O => None
  | S fuel' =>
    if (toInt total =? retrieved)%Z then Some (reqs, Ok rows)
    else
      let req := mkPageRequest jobID token retrieved in
      match getQueryResults bq reqs projectID req with
      | inr err =>
        Some (reqs ++ [req], Err (Wrapped "Error getting query results" err))
      | inl res =>
        if negb (length (pageErrors res) =? 0)%nat then
          Some (reqs ++ [req], Err (ErrorsReturned (length (pageErrors res))))
        else
          collectRows fuel' bq projectID jobID (pageToken res) total
            (retrieved + Z.of_nat (length (pageRows res)))%Z
            (rows ++ pageRows res) (reqs ++ [req])
      end
  end.

(** The request [conf] of [Dump]: the time-out when one is given (zero
    is the default of the field), and [UseQueryCache] pointing to a fresh
    [false] when [nocache] is set. *)
Definition queryConf (query : string) (timeout : Z) (nocache : bool)
  : QueryRequest :=
  mkQueryRequest "bigquery#queryRequest" query timeout
    (if nocache then Some false else None).

(** The call of the writer at the end of [Dump]. *)
Definition writeOut (flt : faults) (result : list (gmap string value))
    (output fileFormat delimiter : string) (pretty printFields : bool)
  : list fsOp * outcome unit :=
  if String.eqb fileFormat "json" then dumpJSON flt result output pretty
  else dumpCSV flt result output delimiter printFields.

(** The per-format options at the start of [Dump]: the format in lower
    case and the delimiter. *)
Definition formatOptions (fileFormat delimiter : string)
  : outcome (string * string) :=
  if String.eqb (ToLower fileFormat) "json" then Ok ("json", delimiter)
  else if String.eqb (ToLower fileFormat) "csv" then
    Ok ("csv", if String.eqb delimiter "" then "," else delimiter)
  else Err UnsupportedOutputFormat.

(** [Dump] up to the conversion of the rows: the page requests made and
    the records, with the format and the delimiter for the writer. *)
Definition fetchRecords (fuel : nat) (bq : BigQuery)
    (projectID jwtFile output fileFormat delimiter query : string)
    (timeout : Z) (nocache : bool)
  : option (list PageRequest
            * outcome (string * string * list (gmap string value))) :=
  if String.eqb projectID "" || String.eqb jwtFile "" || String.eqb output ""
     || String.eqb fileFormat "" || String.eqb query ""
  then Some ([], Err NoParameters)
  else
    match formatOptions fileFormat delimiter with
    | Err e => Some ([], Err e)
    | Panic => Some ([], Panic)
    | Ok (fileFormat, delimiter) =>
      match clientErr bq with
      | Some err => Some ([], Err err)
      | None =>
        let conf := queryConf query timeout nocache in
        match queryDo bq projectID conf with
        | inr err => Some ([], Err (Wrapped "Error sending request" err))
        | inl res =>
          if negb (length (Errors res) =? 0)%nat then
            Some ([], Err (ErrorsReturned (length (Errors res))))
          else
            let total := TotalRows res in
            let retrieved := Z.of_nat (length (Rows res)) in
            let rows := Rows res in
            match Schema res with
            | None => Some ([], Err NoSchema)
            | Some fields =>
              let collected :=
                if negb (retrieved =? toInt total)%Z then
                  match JobReference res with
                  | None => Some ([], Panic)   (* nil pointer dereference *)
                  | Some jobID =>
                    collectRows fuel bq projectID jobID (PageToken res)
                      total retrieved rows []
                  end
                else Some ([], Ok rows) in
              match collected with
              | None => None
              | Some (reqs, Err e) => Some (reqs, Err e)
              | Some (reqs, Panic) => Some (reqs, Panic)
              | Some (reqs, Ok rows) =>
                match toRows fields rows with
                | Err e => Some (reqs, Err e)
                | Panic => Some (reqs, Panic)
                | Ok result => Some (reqs, Ok (fileFormat, delimiter, result))
                end
              end
            end
        end
      end
    end.

(** [Dump]: the page requests, the effects on the file system and the
    value returned. *)
Definition Dump (fuel : nat) (bq : BigQuery) (flt : faults)
    (projectID jwtFile output fileFormat delimiter query proxy : string)
    (pretty printFields : bool) (timeout : Z) (nocache : bool)
  : option (list PageRequest * list fsOp * outcome unit) :=
  match fetchRecords fuel bq projectID jwtFile output fileFormat delimiter
          query timeout nocache with
  | None => None
  | Some (reqs, Err e) => Some (reqs, [], Err e)
  | Some (reqs, Panic) => Some (reqs, [], Panic)
  | Some (reqs, Ok (fileFormat, delimiter, result)) =>
    let '(ops, r) :=
      writeOut flt result output fileFormat delimiter pretty printFields in
    Some (reqs, ops, r)
  end.

(** The requests the loop of [Dump] has to make for the pages [pages]:
    each one carries the token of the page before (the token of the query
    response for the first) and, as start index, the number of rows
    received so far. *)
Fixpoint pageRequests (jobID token : string) (retrieved : Z)
    (pages : list PageResponse) : list PageRequest :=
  match pages with
  | [] => []
  | p :: ps =>
    mkPageRequest jobID token retrieved
    :: pageRequests jobID (pageToken p)
         (retrieved + Z.of_nat (length (pageRows p)))%Z ps
  end.

(** The service answers these requests with [pages], without an error,
    and the row count reaches [int(total)] with the last page and not
    before. *)
Fixpoint answered (bq : BigQuery) (projectID jobID : string) (total : Z)
    (reqs : list PageRequest) (token : string) (retrieved : Z)
    (pages : list PageResponse) : Prop :=
  match pages with
  | [] => toInt total = retrieved
  | p :: ps =>
    toInt total <> retrieved
    /\ getQueryResults bq reqs projectID
         (mkPageRequest jobID token retrieved) = inl p
    /\ pageErrors p = []
    /\ answered bq projectID jobID total
         (reqs ++ [mkPageRequest jobID token retrieved]) (pageToken p)
         (retrieved + Z.of_nat (length (pageRows p)))%Z ps
  end.

(** The rows of a list of pages, in order. *)
Definition pagesRows (pages : list PageResponse) : list TableRow :=
  concat (pageRows <$> pages).

Definition tab : string := String "009" "".


(** Sample rows, a query answered in three pages, and a query without
    rows. *)
Definition sampleRow1 : TableRow := [CString "1"; CString "ann"].
Definition sampleRow2 : TableRow := [CString "2"; CNil].
Definition sampleRow3 : TableRow := [CString "3"; CString "cy"].

Definition sampleResponse : QueryResponse :=
  mkQueryResponse [] 3 [sampleRow1] (Some sampleSchema) (Some "job_1") "t1".

Definition samplePages : list PageResponse :=
  [mkPageResponse [] [sampleRow2] "t2"; mkPageResponse [] [sampleRow3] ""].

Definition sampleBigQuery : BigQuery :=
  mkBigQuery None (fun _ _ => inl sampleResponse)
    (fun _ _ req =>
       if String.eqb (reqPageToken req) "t1" then
         inl (mkPageResponse [] [sampleRow2] "t2")
       else if String.eqb (reqPageToken req) "t2" then
         inl (mkPageResponse [] [sampleRow3] "")
       else inr (External "invalid page token")).

Definition emptyResponse : QueryResponse :=
  mkQueryResponse [] 0 [] (Some sampleSchema) (Some "job_2") "".

Definition emptyBigQuery : BigQuery :=
  mkBigQuery None (fun _ _ => inl emptyResponse)
    (fun _ _ _ => inr (External "no such job")).

Definition sampleRecord : gmap string value :=
  <["name" := VString "ann"]> (<["id" := VInt 1]> ∅).

(** The records and the page requests of the sample query. *)
Definition sampleRecords : list (gmap string value) :=
  [sampleRecord;
   <["name" := VNil]> (<["id" := VInt 2]> ∅);
   <["name" := VString "cy"]> (<["id" := VInt 3]> ∅)].

Definition sampleRequests : list PageRequest :=
  [mkPageRequest "job_1" "t1" 1; mkPageRequest "job_1" "t2" 2].

(** The path an effect is on. *)
Definition opPath (op : fsOp) : string :=
  match op with
  | FsCreate p => p
  | FsAppend p _ => p
  | FsRemove p => p
  end.

(** A query whose first answer holds one row and reports a total of
    zero, on a service that answers every page request with an empty
    page. *)
Definition overshootResponse : QueryResponse :=
  mkQueryResponse [] 0 [sampleRow1] (Some sampleSchema) (Some "job_3") "".

Definition overshootBigQuery : BigQuery :=
  mkBigQuery None (fun _ _ => inl overshootResponse)
    (fun _ _ _ => inl (mkPageResponse [] [] "")).

(** One possible iteration order of a map. *)
Definition keysInMapOrder (m : gmap string value) : list string :=
  (map_to_list m).*1.

(** * Properties *)

(** ** Cell decoding *)




Lemma eqb_false_of_ne (a b : string) : a <> b -> String.eqb a b = false.
Proof. by intros ?%String.eqb_neq. Qed.


(** The rows are decoded in order, each against the same field-type
    list, and the first failure ends [toRows]. *)
Lemma decodeRows_length names rows : forall results out,
  decodeRows names rows results = Ok out ->
  length out = (length results + length rows)%nat.
Proof.
  induction rows as [|row rest IH]; intros results out H; simpl in H.
  - inversion H. simpl. lia.
  - destruct (decodeCells names 0 row ∅) as [r| |] eqn:Hr; try done.
    simpl in H. apply IH in H. rewrite length_app in H. simpl in *. lia.
Qed.

Lemma decodeRows_records names rows : forall results out,
  decodeRows names rows results = Ok out ->
  exists rs,
    out = results ++ rs
    /\ Forall2 (fun row r => decodeCells names 0 row ∅ = Ok r) rows rs.
Proof.
  induction rows as [|row rest IH]; intros results out H; simpl in H.
  - exists []. split; [|constructor]. rewrite app_nil_r. by simplify_eq.
  - destruct (decodeCells names 0 row ∅) as [r| |] eqn:Hr; try done.
    simpl in H. apply IH in H as (rs & -> & Hrs).
    exists (r :: rs). split; [by rewrite <- app_assoc|by constructor].
Qed.

(** [toRows] succeeds exactly with one record per row, the record of
    row number [k] being what the inner loop makes of that row. *)
Lemma toRows_records fields rows out :
  toRows fields rows = Ok out ->
  Forall2 (fun row r => decodeCells (fieldNames fields) 0 row ∅ = Ok r)
    rows out.
Proof.
  intros H. by apply decodeRows_records in H as (rs & -> & Hrs).
Qed.

Lemma decodeCells_step names i cell rest result :
  decodeCells names i (cell :: rest) result
  = (result' ← decodeCell names i cell result;
     decodeCells names (Datatypes.S i) rest result').
Proof. done. Qed.

Lemma toRows_length fields rows out :
  toRows fields rows = Ok out -> length out = length rows.
Proof. intros H. by apply decodeRows_length in H. Qed.

(** ** Pagination *)

Lemma collectRows_sound bq pid job total fuel :
  forall tok retrieved rows reqs reqs' rows',
  collectRows fuel bq pid job tok total retrieved rows reqs
    = Some (reqs', Ok rows') ->
  exists pages,
    (length pages < fuel)%nat
    /\ answered bq pid job total reqs tok retrieved pages
    /\ reqs' = reqs ++ pageRequests job tok retrieved pages
    /\ rows' = rows ++ pagesRows pages.
Proof.
  induction fuel as [|fuel IH]; intros tok retrieved rows reqs reqs' rows' H;
    [done|].
  cbn [collectRows] in H.
  destruct (toInt total =? retrieved)%Z eqn:Hd.
  - apply Z.eqb_eq in Hd. simplify_eq. exists []. cbn.
    rewrite !app_nil_r. split; [lia|done].
  - apply Z.eqb_neq in Hd.
    destruct (getQueryResults bq reqs pid _) as [res|err] eqn:Hres; [|done].
    destruct (length (pageErrors res)) eqn:Hlen; [|done]. cbn in H.
    apply IH in H as (pages & Hfuel & Hans & -> & ->).
    exists (res :: pages). cbn.
    rewrite <- !app_assoc. split; [lia|].
    split; [|done].
    split; [done|]. split; [done|]. split; [|done].
    by destruct (pageErrors res).
Qed.

Lemma collectRows_complete bq pid job total pages :
  forall fuel tok retrieved rows reqs,
  answered bq pid job total reqs tok retrieved pages ->
  (length pages < fuel)%nat ->
  collectRows fuel bq pid job tok total retrieved rows reqs
    = Some (reqs ++ pageRequests job tok retrieved pages,
            Ok (rows ++ pagesRows pages)).
Proof.
  induction pages as [|p ps IH]; intros fuel tok retrieved rows reqs Hans Hf;
    (destruct fuel as [|fuel]; [cbn in Hf; lia|]); cbn [collectRows].
  - cbn in Hans. rewrite Hans, Z.eqb_refl. cbn. by rewrite !app_nil_r.
  - cbn in Hans. destruct Hans as (Hne & Hres & Herr & Hans).
    apply Z.eqb_neq in Hne. rewrite Hne, Hres, Herr. cbn.
    rewrite (IH fuel); [|done|cbn in Hf; lia].
    by rewrite <- !app_assoc.
Qed.

Lemma answered_total bq pid job total pages :
  forall reqs tok retrieved,
  answered bq pid job total reqs tok retrieved pages ->
  toInt total = (retrieved + Z.of_nat (length (pagesRows pages)))%Z.
Proof.
  induction pages as [|p ps IH]; intros reqs tok retrieved Hans; cbn in Hans.
  - cbn. lia.
  - destruct Hans as (_ & _ & _ & Hans). apply IH in Hans.
    unfold pagesRows in *. cbn. rewrite length_app. lia.
Qed.

Lemma toInt_nonneg (u : Z) (n : nat) :
  (0 <= u < 2 ^ 64)%Z -> toInt u = Z.of_nat n -> u = Z.of_nat n.
Proof. unfold toInt. intros Hu. destruct (u <? 2 ^ 63)%Z eqn:Hc; lia. Qed.

(** C2: the records of the output are as many as the total the query
    response reports.  For a query response [res] (with [TotalRows] a
    [uint64]): whenever [Dump] gets as far as the writer, the record list
    handed to it has exactly [TotalRows res] entries; the page requests
    made are the ones for the pages received, each with the token of the
    page before and the running row count as start index; the rows are
    those of the first response followed by those of the pages, and the
    loop stopped when their number reached the total.  And the loop does
    return: when the service answers these requests with pages whose
    rows add up to the total, [Dump] reaches the writer. *)
Theorem Dump_pagination (fuel : nat) (bq : BigQuery) (flt : faults)
    (projectID jwtFile output fileFormat delimiter query proxy : string)
    (pretty printFields : bool) (timeout : Z) (nocache : bool)
    (res : QueryResponse) :
  queryDo bq projectID (queryConf query timeout nocache) = inl res ->
  (0 <= TotalRows res < 2 ^ 64)%Z ->
  (forall reqs ff dl result,
     fetchRecords fuel bq projectID jwtFile output fileFormat delimiter
       query timeout nocache = Some (reqs, Ok (ff, dl, result)) ->
     Z.of_nat (length result) = TotalRows res
     /\ Dump fuel bq flt projectID jwtFile output fileFormat delimiter query
          proxy pretty printFields timeout nocache
        = Some (reqs, (writeOut flt result output ff dl pretty printFields).1,
                (writeOut flt result output ff dl pretty printFields).2)
     /\ exists fields pages,
          Schema res = Some fields
          /\ answered bq projectID (default "" (JobReference res))
               (TotalRows res) [] (PageToken res)
               (Z.of_nat (length (Rows res))) pages
          /\ reqs = pageRequests (default "" (JobReference res))
                      (PageToken res) (Z.of_nat (length (Rows res))) pages
          /\ toRows fields (Rows res ++ pagesRows pages)
             = Ok result)
  /\ (forall job fields pages ff dl result,
        formatOptions fileFormat delimiter = Ok (ff, dl) ->
        projectID <> "" -> jwtFile <> "" -> output <> "" -> query <> "" ->
        clientErr bq = None -> Errors res = [] ->
        Schema res = Some fields -> JobReference res = Some job ->
        answered bq projectID job (TotalRows res) [] (PageToken res)
          (Z.of_nat (length (Rows res))) pages ->
        (length pages < fuel)%nat ->
        toRows fields (Rows res ++ pagesRows pages) = Ok result ->
        fetchRecords fuel bq projectID jwtFile output fileFormat delimiter
          query timeout nocache
        = Some (pageRequests job (PageToken res)
                  (Z.of_nat (length (Rows res))) pages,
                Ok (ff, dl, result))).
Proof.
  intros Hq Hrange. split.
  - intros reqs ff dl result H.
    assert (HD : Dump fuel bq flt projectID jwtFile output fileFormat
                   delimiter query proxy pretty printFields timeout nocache
                 = Some (reqs,
                     (writeOut flt result output ff dl pretty printFields).1,
                     (writeOut flt result output ff dl pretty printFields).2)).
    { unfold Dump. rewrite H. by destruct (writeOut _ _ _ _ _ _ _). }
    unfold fetchRecords in H.
    destruct (_ || _); [done|].
    destruct (formatOptions fileFormat delimiter) as [[ff' dl']| |];
      [|done..].
    destruct (clientErr bq); [done|].
    rewrite Hq in H.
    destruct (negb (length (Errors res) =? 0)%nat); [done|].
    destruct (Schema res) as [fields|]; [|done].
    destruct (negb (_ =? _)%Z) eqn:Hne.
    + destruct (JobReference res) as [job|]; [|done].
      destruct (collectRows _ _ _ _ _ _ _ _ _) as [[reqs' [rows'| |]]|] eqn:Hc;
        [|done..].
      destruct (toRows fields rows') as [out| |] eqn:Ht; [|done..].
      simplify_eq.
      apply collectRows_sound in Hc as (pages & _ & Hans & -> & ->).
      split; [|split; [done|]].
      * apply toRows_length in Ht. rewrite Ht.
        apply answered_total in Hans.
        symmetry. apply toInt_nonneg; [done|].
        rewrite Hans, length_app. lia.
      * exists fields, pages. by cbn.
    + apply negb_false_iff, Z.eqb_eq in Hne.
      destruct (toRows fields (Rows res)) as [out| |] eqn:Ht;
        [|done..].
      simplify_eq.
      split; [|split; [done|]].
      * apply toRows_length in Ht. rewrite Ht.
        symmetry. by apply toInt_nonneg.
      * exists fields, []. cbn. unfold pagesRows. cbn.
        by rewrite app_nil_r.
  - intros job fields pages ff dl result Hfmt Hp Hj Ho Hqy Hc He Hs Hjob Hans
      Hfuel Ht.
    unfold fetchRecords.
    assert (fileFormat <> "").
    { intros ->. by vm_compute in Hfmt. }
    rewrite !eqb_false_of_ne by done. cbn [orb].
    rewrite Hfmt, Hc, Hq, He, Hs. cbn [length Nat.eqb negb].
    destruct (negb (_ =? _)%Z) eqn:Hne.
    + rewrite Hjob.
      rewrite (collectRows_complete _ _ _ _ pages) by done.
      cbn [app]. by rewrite Ht.
    + apply negb_false_iff, Z.eqb_eq in Hne.
      destruct pages as [|p ps]; [|cbn in Hans; lia].
      cbn. unfold pagesRows in Ht. cbn in Ht. rewrite app_nil_r in Ht.
      by rewrite Ht.
Qed.

(** ** The CSV writer *)

Lemma csvFields_sorted data0 : Sorted String.le (csvFields data0).
Proof. apply Sorted_merge_sort; apply _. Qed.

Lemma csvFields_keys data0 : csvFields data0 ≡ₚ (map_to_list data0).*1.
Proof using rangeKeys_perm.
  unfold csvFields, sortStrings.
  by rewrite merge_sort_Permutation, rangeKeys_perm.
Qed.

Lemma sortStrings_unique (l1 l2 : list string) :
  l1 ≡ₚ l2 -> sortStrings l1 = sortStrings l2.
Proof.
  intros Hp. apply (Sorted_unique String.le).
  - apply Sorted_merge_sort; apply _.
  - apply Sorted_merge_sort; apply _.
  - unfold sortStrings. by rewrite !merge_sort_Permutation.
Qed.

Lemma csvLine_lookup fields (rows : gmap string value) (j : nat) f :
  fields !! j = Some f ->
  csvLine fields rows !! j
  = Some (match rows !! f with Some val => formatValue val | None => "" end).
Proof. intros H. unfold csvLine. by rewrite list_lookup_fmap, H. Qed.

(** C6: for a non-empty record list, the columns of the CSV output are
    the keys of the first record in increasing (byte-wise lexicographic)
    order: the header line is this sorted list, every data line has one
    entry per column, in the same order (the value of the record under
    that key, or the empty string), and the order depends neither on the
    order in which the map is iterated nor on the order in which the keys
    were inserted. *)
Theorem dumpCSV_field_order (data0 : gmap string value)
    (rest : list (gmap string value)) (data : list (gmap string value))
    (fields : list string) :
  data = data0 :: rest ->
  fields = csvFields data0 ->
  Sorted String.le fields
  /\ fields ≡ₚ (map_to_list data0).*1
  /\ csvLines data true = Ok (fields :: map (csvLine fields) data)
  /\ csvLines data false = Ok (map (csvLine fields) data)
  /\ (forall rows, rows ∈ data ->
        length (csvLine fields rows) = length fields
        /\ forall j f, fields !! j = Some f ->
             csvLine fields rows !! j
             = Some (match rows !! f with
                     | Some val => formatValue val
                     | None => ""
                     end))
  /\ (forall keys, keys ≡ₚ (map_to_list data0).*1 ->
        sortStrings keys = fields)
  /\ (forall kvs kvs' : list (string * value),
        NoDup kvs.*1 -> kvs ≡ₚ kvs' ->
        csvFields (list_to_map kvs) = csvFields (list_to_map kvs')).
Proof using rangeKeys_perm.
  intros -> ->.
  split; [apply csvFields_sorted|].
  split; [apply csvFields_keys|].
  split; [done|]. split; [done|].
  split; [|split].
  - intros rows _. split.
    + unfold csvLine. by rewrite length_map.
    + intros j f. apply csvLine_lookup.
  - intros keys Hk. unfold csvFields.
    apply sortStrings_unique. by rewrite Hk, rangeKeys_perm.
  - intros kvs kvs' Hnd Hp.
    by rewrite (list_to_map_proper (M := gmap string) kvs kvs' Hnd Hp).
Qed.


Lemma joinFields_cons comma f g rest :
  joinFields comma (f :: g :: rest)
  = csvField comma f +:+ encodeRune comma +:+ joinFields comma (g :: rest).
Proof. done. Qed.





(** C9: the CSV writer needs a first record.  [dumpCSV] on the empty
    list panics (index out of range at [data[0]]) before it touches the
    file system, whereas [dumpJSON] never panics; and [Dump] gets there: a
    query answered with no rows and a total of zero ends in this panic
    when the format is CSV, and in the value of [dumpJSON] on the empty
    list when it is JSON. *)
Theorem dumpCSV_empty_panics (fuel : nat) (bq : BigQuery) (flt : faults)
    (projectID jwtFile output fileFormat delimiter query proxy : string)
    (pretty printFields : bool) (timeout : Z) (nocache : bool)
    (res : QueryResponse) (fields : list TableFieldSchema) :
  dumpCSV flt [] output delimiter printFields = ([], Panic)
  /\ (forall data, (dumpJSON flt data output pretty).2 <> Panic)
  /\ (projectID <> "" -> jwtFile <> "" -> output <> "" -> query <> "" ->
      clientErr bq = None ->
      queryDo bq projectID (queryConf query timeout nocache) = inl res ->
      Errors res = [] -> TotalRows res = 0%Z -> Rows res = [] ->
      Schema res = Some fields ->
      (ToLower fileFormat = "csv" ->
       Dump fuel bq flt projectID jwtFile output fileFormat delimiter query
         proxy pretty printFields timeout nocache = Some ([], [], Panic))
      /\ (ToLower fileFormat = "json" ->
          Dump fuel bq flt projectID jwtFile output fileFormat delimiter query
            proxy pretty printFields timeout nocache
          = Some ([], (dumpJSON flt [] output pretty).1,
                  (dumpJSON flt [] output pretty).2))).
Proof.
  split; [done|]. split.
  { intros data. unfold dumpJSON, writeFile.
    destruct (createErr flt); [done|].
    destruct pretty.
    - destruct (MarshalIndent data); [|done].
      by destruct (writeErr flt) as [[]|].
    - destruct (Marshal data); [|done].
      by destruct (writeErr flt) as [[]|]. }
  intros Hp Hj Ho Hq Hc Hres He Ht Hr Hs.
  assert (Hfetch : forall ff dl,
            formatOptions fileFormat delimiter = Ok (ff, dl) ->
            fetchRecords fuel bq projectID jwtFile output fileFormat delimiter
              query timeout nocache = Some ([], Ok (ff, dl, []))).
  { intros ff dl Hopt. unfold fetchRecords.
    assert (fileFormat <> "") by (intros ->; by vm_compute in Hopt).
    rewrite !eqb_false_of_ne by done. cbn [orb].
    rewrite Hopt, Hc, Hres, He, Hs, Ht, Hr. by cbn. }
  split; intros Hf.
  - unfold Dump, formatOptions in *. rewrite Hf in Hfetch. cbn in Hfetch.
    by rewrite (Hfetch _ _ eq_refl).
  - unfold Dump, formatOptions in *. rewrite Hf in Hfetch. cbn in Hfetch.
    rewrite (Hfetch _ _ eq_refl). unfold writeOut. cbn.
    by destruct (dumpJSON flt [] output pretty).
Qed.

(** ** Cleanup after a failed write *)


(** Not every failure of [dumpJSON] is a failed write: with [pretty] set,
    an error of [json.MarshalIndent] is returned after the file has been
    created and before anything is written, and the empty file stays. *)
Remark dumpJSON_pretty_marshal_error (flt : faults)
    (data : list (gmap string value)) (output : string) (e : error)
    (fs : gmap string string) :
  createErr flt = None -> MarshalIndent data = inr e ->
  dumpJSON flt data output true = ([FsCreate output], Err e)
  /\ applyOps fs (dumpJSON flt data output true).1 !! output = Some "".
Proof.
  intros Hc Hm. unfold dumpJSON. rewrite Hc, Hm. split; [done|].
  cbn. apply lookup_insert_eq.
Qed.

(** ** More on decoding *)

Lemma decodeCell_ok names i cell result r :
  decodeCell names i cell result = Ok r ->
  exists ft v, names !! i = Some ft /\ r = <[name ft := v]> result.
Proof.
  unfold decodeCell. destruct (names !! i) as [ft|]; [|done].
  intros H. exists ft.
  destruct cell as [|raw|o]; [by eexists; split; [|by simplify_eq]|..].
  - destruct (String.eqb (ftype ft) "STRING");
      [by eexists; split; [|by simplify_eq]|].
    destruct (_ || _).
    { cbn in H. unfold parseWith in H. destruct (ParseInt raw); [|done].
      cbn in H. by eexists; split; [|by simplify_eq]. }
    destruct (String.eqb (ftype ft) "FLOAT").
    { cbn in H. unfold parseWith in H. destruct (ParseFloat raw); [|done].
      cbn in H. by eexists; split; [|by simplify_eq]. }
    destruct (String.eqb (ftype ft) "BOOLEAN"); [|done].
    cbn in H. unfold parseWith in H. destruct (ParseBool raw); [|done].
    cbn in H. by eexists; split; [|by simplify_eq].
  - destruct (String.eqb (ftype ft) "STRING");
      [by eexists; split; [|by simplify_eq]|].
    destruct (_ || _); [done|].
    destruct (String.eqb (ftype ft) "FLOAT"); [done|].
    by destruct (String.eqb (ftype ft) "BOOLEAN").
Qed.

Lemma decodeCells_dom names cells : forall i result r,
  decodeCells names i cells result = Ok r ->
  dom r = dom result ∪ list_to_set (name <$> take (length cells) (drop i names)).
Proof.
  induction cells as [|cell rest IH]; intros i result r H; cbn in H.
  - simplify_eq. simpl. by rewrite (right_id_L ∅ (∪)).
  - destruct (decodeCell names i cell result) as [result'| |] eqn:Hc;
      [|done..].
    cbn in H. apply IH in H. rewrite H.
    apply decodeCell_ok in Hc as (ft & v & Hft & ->).
    rewrite (drop_S names ft i Hft). simpl. rewrite dom_insert_L.
    by rewrite (comm_L (∪) {[name ft]} (dom result)), <- (assoc_L (∪)).
Qed.

Lemma decodeCells_too_long names cells : forall i result r,
  (i <= length names)%nat -> (length names < i + length cells)%nat ->
  decodeCells names i cells result <> Ok r.
Proof.
  induction cells as [|cell rest IH]; intros i result r Hi Hlen H;
    cbn in *; [lia|].
  destruct (decodeCell names i cell result) as [result'| |] eqn:Hc;
    [|done..].
  cbn in H. apply decodeCell_ok in Hc as (ft & v & Hft & ->).
  apply lookup_lt_Some in Hft.
  apply IH in H; [done|lia..].
Qed.

(** X1: the keys of a record are the flattened names of the columns the
    row has cells for: a row that is shorter than the schema gives a
    record with fewer keys, and columns with the same flattened name share
    one key. *)
Theorem toRows_record_keys (fields : list TableFieldSchema)
    (rows : list TableRow) (out : list (gmap string value)) :
  toRows fields rows = Ok out ->
  Forall2 (fun row r =>
             (length row <= length fields)%nat
             /\ dom r = list_to_set
                          (name <$> take (length row) (fieldNames fields)))
    rows out.
Proof.
  intros H. apply toRows_records in H.
  induction H as [|row r rows out Hrow _ IH]; constructor; [|done].
  split.
  - destruct (decide (length row <= length fields)%nat) as [|Hn]; [done|].
    exfalso. eapply (decodeCells_too_long _ row 0%nat); [| |exact Hrow].
    + lia.
    + unfold fieldNames. rewrite length_map. cbn. lia.
  - apply decodeCells_dom in Hrow. rewrite Hrow, dom_empty_L.
    by rewrite drop_0, (left_id_L ∅ (∪)).
Qed.

(** X2: [toRows] never succeeds on a row with more cells than the schema
    has fields (the index into the field-type list runs out of range), and
    a cell that holds an object or an array under a column of a parsed
    type stops it with a panic (the type assertion fails). *)
Theorem toRows_panics (fields : list TableFieldSchema) (rows : list TableRow)
    (names : list fieldType) (i : nat) (ft : fieldType) (o : composite)
    (result : gmap string value) :
  (forall row out,
     row ∈ rows -> (length fields < length row)%nat ->
     toRows fields rows <> Ok out)
  /\ (forall cells : TableRow,
        Forall (fun cell => cell = CNil) cells ->
        (length fields < length cells)%nat ->
        toRows fields [cells] = Panic)
  /\ (names !! i = Some ft ->
      ftype ft ∈ ["INTEGER"; "TIMESTAMP"; "FLOAT"; "BOOLEAN"] ->
      decodeCell names i (CComposite o) result = Panic).
Proof.
  split; [|split].
  - intros row out Hin Hlen H. apply toRows_records in H.
    apply list_elem_of_lookup in Hin as [k Hk].
    destruct (Forall2_lookup_l _ _ _ _ _ H Hk) as (r & _ & Hr).
    eapply (decodeCells_too_long _ row 0%nat); [| |exact Hr]; [lia|].
    unfold fieldNames. rewrite length_map. cbn. lia.
  - intros cells Hnil Hlen. unfold toRows. cbn.
    assert (Hgen : forall cs i0 res,
              Forall (fun cell => cell = CNil) cs ->
              (i0 <= length (fieldNames fields))%nat ->
              (length (fieldNames fields) < i0 + length cs)%nat ->
              decodeCells (fieldNames fields) i0 cs res = Panic).
    { induction cs as [|c cs IH]; intros i0 res Hall Hi Hl; cbn in *; [lia|].
      apply Forall_cons in Hall as [-> Hall]. unfold decodeCell.
      destruct (fieldNames fields !! i0) as [ft0|] eqn:Hft; [|done].
      cbn. apply lookup_lt_Some in Hft. apply IH; [done|lia..]. }
    rewrite Hgen; [done|done|lia|].
    unfold fieldNames. rewrite length_map. cbn. lia.
  - intros Hft Ht. unfold decodeCell. rewrite Hft.
    repeat (apply elem_of_cons in Ht as [-> | Ht]; [done|]).
    by apply elem_of_nil in Ht.
Qed.

Lemma decodeRows_good names good : forall results rest,
  Forall (fun row => exists r, decodeCells names 0 row ∅ = Ok r) good ->
  exists rs, decodeRows names (good ++ rest) results
             = decodeRows names rest (results ++ rs)
             /\ length rs = length good.
Proof.
  induction good as [|row good IH]; intros results rest Hg.
  - exists []. by rewrite app_nil_r.
  - apply Forall_cons in Hg as [[r Hr] Hg]. cbn. rewrite Hr. cbn.
    destruct (IH (results ++ [r]) rest Hg) as (rs & -> & Hlen).
    exists (r :: rs). rewrite <- app_assoc. cbn. by rewrite Hlen.
Qed.

(** X3: [toRows] stops at the first row that does not decode: its error
    (or its panic) is the result, whatever rows follow. *)
Theorem toRows_first_failure (fields : list TableFieldSchema)
    (good : list TableRow) (bad : TableRow) (rest : list TableRow) :
  Forall (fun row => exists r,
            decodeCells (fieldNames fields) 0 row ∅ = Ok r) good ->
  (forall e, decodeCells (fieldNames fields) 0 bad ∅ = Err e ->
     toRows fields (good ++ bad :: rest) = Err e)
  /\ (decodeCells (fieldNames fields) 0 bad ∅ = Panic ->
      toRows fields (good ++ bad :: rest) = Panic).
Proof.
  intros Hg. unfold toRows.
  destruct (decodeRows_good _ good [] (bad :: rest) Hg) as (rs & -> & _).
  split; [intros e Hb|intros Hb]; cbn; by rewrite Hb.
Qed.

(** ** More on [Dump] and the writers *)

Lemma fetchRecords_inv fuel bq pid jwt output fileFormat delimiter query
    timeout nocache reqs ff dl result :
  fetchRecords fuel bq pid jwt output fileFormat delimiter query timeout
    nocache = Some (reqs, Ok (ff, dl, result)) ->
  exists res fields pages,
    clientErr bq = None
    /\ queryDo bq pid (queryConf query timeout nocache) = inl res
    /\ Errors res = [] /\ Schema res = Some fields
    /\ answered bq pid (default "" (JobReference res)) (TotalRows res) []
         (PageToken res) (Z.of_nat (length (Rows res))) pages
    /\ reqs = pageRequests (default "" (JobReference res)) (PageToken res)
                (Z.of_nat (length (Rows res))) pages
    /\ toRows fields (Rows res ++ pagesRows pages) = Ok result.
Proof.
  unfold fetchRecords. intros H.
  destruct (_ || _); [done|].
  destruct (formatOptions fileFormat delimiter) as [[ff' dl']| |]; [|done..].
  destruct (clientErr bq); [done|].
  destruct (queryDo bq pid _) as [res|] eqn:Hq; [|done].
  destruct (length (Errors res)) eqn:He; [|done]. cbn in H.
  destruct (Schema res) as [fields|] eqn:Hs; [|done].
  exists res, fields.
  destruct (negb (_ =? _)%Z) eqn:Hne.
  - destruct (JobReference res) as [job|]; [|done].
    destruct (collectRows _ _ _ _ _ _ _ _ _) as [[reqs' [rows'| |]]|] eqn:Hc;
      [|done..].
    destruct (toRows fields rows') as [out| |] eqn:Ht; [|done..].
    simplify_eq.
    apply collectRows_sound in Hc as (pages & _ & Hans & -> & ->).
    exists pages. cbn. repeat split; try done.
    by destruct (Errors res).
  - apply negb_false_iff, Z.eqb_eq in Hne.
    destruct (toRows fields (Rows res)) as [out| |] eqn:Ht; [|done..].
    simplify_eq. exists []. cbn. unfold pagesRows. cbn.
    rewrite app_nil_r. repeat split; try done.
    by destruct (Errors res).
Qed.

Lemma collectRows_overshoot bq pid job total : forall fuel tok retrieved rows reqs,
  (toInt total < retrieved)%Z ->
  (forall reqs' req, exists p,
     getQueryResults bq reqs' pid req = inl p /\ pageErrors p = []) ->
  collectRows fuel bq pid job tok total retrieved rows reqs = None.
Proof.
  induction fuel as [|fuel IH]; intros tok retrieved rows reqs Hlt Hsrv;
    [done|].
  cbn [collectRows].
  destruct (toInt total =? retrieved)%Z eqn:Hd; [apply Z.eqb_eq in Hd; lia|].
  destruct (Hsrv reqs (mkPageRequest job tok retrieved)) as (p & -> & ->).
  cbn. apply IH; [lia|done].
Qed.

(** X4: when the first answer to the query holds more rows than the total
    it reports (as it does when the total is 2^63 or more, which
    [int(total)] turns negative), the test [int(total) != retrieved] of
    the page loop can never fail: [Dump] does not write anything and does
    not return success, and with a service that answers every page request
    it does not return at all. *)
Theorem Dump_overshoot (bq : BigQuery) (flt : faults)
    (projectID jwtFile output fileFormat delimiter query proxy : string)
    (pretty printFields : bool) (timeout : Z) (nocache : bool)
    (res : QueryResponse) :
  queryDo bq projectID (queryConf query timeout nocache) = inl res ->
  (toInt (TotalRows res) < Z.of_nat (length (Rows res)))%Z ->
  (forall fuel reqs ops r,
     Dump fuel bq flt projectID jwtFile output fileFormat delimiter query
       proxy pretty printFields timeout nocache = Some (reqs, ops, r) ->
     ops = [] /\ r <> Ok ())
  /\ (forall fuel ff dl fields job,
        projectID <> "" -> jwtFile <> "" -> output <> "" -> query <> "" ->
        formatOptions fileFormat delimiter = Ok (ff, dl) ->
        clientErr bq = None -> Errors res = [] ->
        Schema res = Some fields -> JobReference res = Some job ->
        (forall reqs req, exists p,
           getQueryResults bq reqs projectID req = inl p
           /\ pageErrors p = []) ->
        Dump fuel bq flt projectID jwtFile output fileFormat delimiter query
          proxy pretty printFields timeout nocache = None).
Proof.
  intros Hq Hlt. split.
  - intros fuel reqs ops r H. unfold Dump in H.
    destruct (fetchRecords _ _ _ _ _ _ _ _ _ _)
      as [[reqs' [[[ff dl] result]| |]]|] eqn:Hf; [|by simplify_eq..|done].
    exfalso.
    apply fetchRecords_inv in Hf
      as (res' & fields & pages & _ & Hq' & _ & _ & Hans & _ & _).
    rewrite Hq in Hq'. simplify_eq.
    apply answered_total in Hans. lia.
  - intros fuel ff dl fields job Hp Hj Ho Hqy Hfmt Hc He Hs Hjob Hsrv.
    unfold Dump, fetchRecords.
    assert (fileFormat <> "").
    { intros ->. by vm_compute in Hfmt. }
    rewrite !eqb_false_of_ne by done. cbn [orb].
    rewrite Hfmt, Hc, Hq, He, Hs, Hjob. cbn [length Nat.eqb negb].
    destruct (negb (_ =? _)%Z) eqn:Hne.
    + by rewrite collectRows_overshoot.
    + apply negb_false_iff, Z.eqb_eq in Hne. lia.
Qed.

Lemma writeOut_ops flt result output ff dl pretty pf :
  Forall (fun op => opPath op = output)
    (writeOut flt result output ff dl pretty pf).1
  /\ ((writeOut flt result output ff dl pretty pf).1 = []
      \/ exists rest,
           (writeOut flt result output ff dl pretty pf).1
           = FsCreate output :: rest).
Proof.
  unfold writeOut, dumpJSON, dumpCSV, writeFile.
  repeat case_match; simplify_eq; cbn;
    (split; [repeat constructor|eauto]).
Qed.

Lemma applyOps_other output ops : forall fs p,
  Forall (fun op => opPath op = output) ops -> p <> output ->
  applyOps fs ops !! p = fs !! p.
Proof.
  induction ops as [|op ops IH]; intros fs p Hall Hp; [done|].
  apply Forall_cons in Hall as [Hop Hall]. cbn.
  unfold applyOps in IH. rewrite IH by done.
  destruct op; cbn in *; subst.
  - by rewrite lookup_insert_ne.
  - by rewrite lookup_insert_ne.
  - by rewrite lookup_delete_ne.
Qed.

(** X5: [Dump] writes to the file system only once the query and all its
    pages have been fetched and decoded, and then only to the output file:
    every create, write and remove is on [output], the first one creates
    (and so truncates) it, and every other file is as it was. *)
Theorem Dump_file_effects (fuel : nat) (bq : BigQuery) (flt : faults)
    (projectID jwtFile output fileFormat delimiter query proxy : string)
    (pretty printFields : bool) (timeout : Z) (nocache : bool)
    (reqs : list PageRequest) (ops : list fsOp) (r : outcome unit) :
  Dump fuel bq flt projectID jwtFile output fileFormat delimiter query
    proxy pretty printFields timeout nocache = Some (reqs, ops, r) ->
  Forall (fun op => opPath op = output) ops
  /\ (ops <> [] ->
      head ops = Some (FsCreate output)
      /\ exists ff dl result,
           fetchRecords fuel bq projectID jwtFile output fileFormat
             delimiter query timeout nocache
           = Some (reqs, Ok (ff, dl, result)))
  /\ (forall fs p, p <> output -> applyOps fs ops !! p = fs !! p).
Proof.
  intros H. unfold Dump in H.
  destruct (fetchRecords _ _ _ _ _ _ _ _ _ _)
    as [[reqs' [[[ff dl] result]| |]]|] eqn:Hf; [| | |done].
  - destruct (writeOut flt result output ff dl pretty printFields)
      as [ops' r'] eqn:Hw.
    simplify_eq.
    destruct (writeOut_ops flt result output ff dl pretty printFields)
      as [Hall Hhd].
    rewrite Hw in Hall, Hhd. cbn in Hall, Hhd.
    split; [done|]. split.
    + intros Hne. split; [|by eauto].
      by destruct Hhd as [->|[rest ->]].
    + intros fs p Hp. by apply (applyOps_other output).
  - simplify_eq. split; [constructor|]. split; [done|]. done.
  - simplify_eq. split; [constructor|]. split; [done|]. done.
Qed.

(** X6: [dumpJSON] leaves no partial file. When the file can be created,
    it holds, after a success, the whole text (for [pretty] what
    [json.MarshalIndent] gives, otherwise what the encoder gives with its
    newline); after an error it is gone, or, when the error is that of
    [json.MarshalIndent], it is empty. The function never panics, and it
    does nothing when the file cannot be created. *)
Theorem dumpJSON_no_partial_file (flt : faults)
    (data : list (gmap string value)) (output : string) (pretty : bool)
    (fs : gmap string string) :
  (forall e, createErr flt = Some e ->
     dumpJSON flt data output pretty = ([], Err e))
  /\ (createErr flt = None ->
      match (dumpJSON flt data output pretty).2 with
      | Ok _ =>
        exists text,
          (if pretty then MarshalIndent data = inl text
           else exists by_, Marshal data = inl by_
                            /\ text = by_ +:+ newline)
          /\ applyOps fs (dumpJSON flt data output pretty).1 !! output
             = Some text
      | Err e =>
        applyOps fs (dumpJSON flt data output pretty).1 !! output = None
        \/ (pretty = true /\ MarshalIndent data = inr e
            /\ applyOps fs (dumpJSON flt data output pretty).1 !! output
               = Some "")
      | Panic => False
      end).
Proof.
  split.
  { intros e He. unfold dumpJSON. by rewrite He. }
  intros Hc. unfold dumpJSON, writeFile. rewrite Hc.
  destruct pretty.
  - destruct (MarshalIndent data) as [text|e] eqn:Hm.
    + destruct (writeErr flt) as [[n e]|]; cbn.
      * left. apply lookup_delete_eq.
      * exists text. split; [done|].
        by rewrite lookup_insert_eq, lookup_insert_eq.
    + cbn. right. split; [done|]. split; [done|]. apply lookup_insert_eq.
  - destruct (Marshal data) as [text|e] eqn:Hm.
    + destruct (writeErr flt) as [[n e]|]; cbn.
      * left. apply lookup_delete_eq.
      * exists (text +:+ newline). split; [by eauto|].
        by rewrite lookup_insert_eq, lookup_insert_eq.
    + cbn. left. apply lookup_delete_eq.
Qed.

Lemma csvLines_cons data0 rest pf :
  csvLines (data0 :: rest) pf
  = Ok (if pf then csvFields data0 :: map (csvLine (csvFields data0)) (data0 :: rest)
        else map (csvLine (csvFields data0)) (data0 :: rest)).
Proof. done. Qed.

(** X7: [dumpCSV] reports no error of the CSV writer: once there is a
    record and the file can be created it returns nil, whatever happens to
    the write. A delimiter that [encoding/csv] refuses (one that starts
    with a double quote, a carriage return, a line feed or a NUL byte, for
    instance) gives an empty output file and success. *)
Theorem dumpCSV_errors_dropped (flt : faults)
    (data : list (gmap string value)) (output delim : string)
    (printFields : bool) (fs : gmap string string) :
  data <> [] -> createErr flt = None ->
  (dumpCSV flt data output delim printFields).2 = Ok ()
  /\ (validDelim (csvComma delim) = false ->
      dumpCSV flt data output delim printFields = ([FsCreate output], Ok ())
      /\ applyOps fs (dumpCSV flt data output delim printFields).1 !! output
         = Some "")
  /\ (forall c more,
        c ∈ ["034"; "013"; "010"; "000"]%char ->
        validDelim (csvComma (String c more)) = false).
Proof.
  intros Hd Hc. destruct data as [|data0 rest]; [done|].
  split; [|split].
  - unfold dumpCSV. rewrite csvLines_cons, Hc.
    by destruct (csvWriteAll _ _).
  - intros Hv.
    assert (HD : dumpCSV flt (data0 :: rest) output delim printFields
                 = ([FsCreate output], Ok ())).
    { unfold dumpCSV. rewrite csvLines_cons, Hc. unfold csvWriteAll.
      rewrite Hv. by destruct printFields. }
    split; [done|]. rewrite HD. cbn. apply lookup_insert_eq.
  - intros c more Hin.
    repeat (apply elem_of_cons in Hin as [-> | Hin]; [done|]).
    by apply elem_of_nil in Hin.
Qed.

(** X8: the lines [dumpCSV] writes are shaped by the first record alone:
    one line per record (and one more for the header), every line with as
    many fields as the first record has keys, and a key that the first
    record does not have is left out of every line. *)
Theorem csvLines_shape (data0 : gmap string value)
    (rest : list (gmap string value)) (printFields : bool) :
  exists lines,
    csvLines (data0 :: rest) printFields = Ok lines
    /\ length lines
       = (length rest + (if printFields then 2 else 1))%nat
    /\ Forall (fun l => length l = size data0) lines
    /\ (forall k v r,
          data0 !! k = None ->
          csvLine (csvFields data0) (<[k := v]> r)
          = csvLine (csvFields data0) r).
Proof using rangeKeys_perm.
  assert (Hlen : length (csvFields data0) = size data0).
  { by rewrite csvFields_keys, length_fmap, length_map_to_list. }
  eexists. split; [apply csvLines_cons|]. split; [|split].
  - destruct printFields; cbn; rewrite length_map; lia.
  - assert (Forall (fun l : list string => length l = size data0)
              (map (csvLine (csvFields data0)) (data0 :: rest))).
    { apply Forall_forall. intros l Hl.
      apply list_elem_of_fmap in Hl as (r & -> & _).
      unfold csvLine. by rewrite length_map. }
    destruct printFields; [by constructor|done].
  - intros k v r Hk. unfold csvLine. apply map_ext_in.
    intros f Hf. rewrite lookup_insert_ne; [done|].
    intros ->. apply list_elem_of_In in Hf.
    rewrite csvFields_keys in Hf.
    apply list_elem_of_fmap in Hf as ([k' v'] & -> & Hin).
    apply elem_of_map_to_list in Hin. cbn in Hk. congruence.
Qed.

(** X9: options of the other format are without effect: with "json" the
    delimiter and [printFields] do not matter, with "csv" [pretty] does
    not. *)
Theorem Dump_other_format_options (fuel : nat) (bq : BigQuery)
    (flt : faults)
    (projectID jwtFile output fileFormat delimiter delimiter' query proxy
       : string)
    (pretty pretty' printFields printFields' : bool) (timeout : Z)
    (nocache : bool) :
  (ToLower fileFormat = "json" ->
   Dump fuel bq flt projectID jwtFile output fileFormat delimiter query
     proxy pretty printFields timeout nocache
   = Dump fuel bq flt projectID jwtFile output fileFormat delimiter' query
       proxy pretty printFields' timeout nocache)
  /\ (ToLower fileFormat = "csv" ->
      Dump fuel bq flt projectID jwtFile output fileFormat delimiter query
        proxy pretty printFields timeout nocache
      = Dump fuel bq flt projectID jwtFile output fileFormat delimiter query
          proxy pretty' printFields timeout nocache).
Proof.
  split; intros Hf; unfold Dump, fetchRecords, formatOptions; rewrite Hf;
    cbn [String.eqb Ascii.eqb Bool.eqb]; repeat case_match; simplify_eq;
    try done; unfold writeOut in *; cbn in *; congruence.
Qed.

(** ** What [dumpCSV] prints and what [toRows] reads *)

Lemma pretty_N_char_digit d :
  (d < 10)%N ->
  isDigit (pretty_N_char d) = true
  /\ (Z.of_N (N_of_ascii (pretty_N_char d)) - 48 = Z.of_N d)%Z.
Proof.
  intros H. rewrite <- (N2Nat.id d).
  assert (Hn : (N.to_nat d < 10)%nat) by lia.
  revert Hn. generalize (N.to_nat d). intros n Hn.
  do 10 (destruct n as [|n]; [by vm_compute|]). lia.
Qed.

Lemma parseUintLoop_pretty x : forall s,
  (Z.of_N x <= maxUint64)%Z ->
  parseUintLoop (pretty_N_go x s) 0 = parseUintLoop s (Z.of_N x).
Proof.
  induction (N.lt_wf_0 x) as [x _ IH]; intros s Hx.
  destruct (decide (x = 0)%N) as [->|Hpos]; [by rewrite pretty_N_go_0|].
  assert (Hdm : (Z.of_N x
                 = Z.of_N (x `div` 10) * 10 + Z.of_N (x `mod` 10))%Z).
  { rewrite N2Z.inj_div, N2Z.inj_mod.
    pose proof (Z.div_mod (Z.of_N x) 10). lia. }
  assert (Hm : (x `mod` 10 < 10)%N) by (apply N.mod_lt; lia).
  assert (Hmax : maxUint64 = 18446744073709551615%Z) by (by vm_compute).
  assert (Hcut : cutoff64 = 1844674407370955162%Z) by (by vm_compute).
  assert (Hq : (0 <= Z.of_N (x `div` 10) < cutoff64)%Z).
  { assert (Hr : (0 <= Z.of_N (x `mod` 10))%Z) by apply N2Z.is_nonneg.
    assert (Hq0 : (0 <= Z.of_N (x `div` 10))%Z) by apply N2Z.is_nonneg.
    revert Hdm Hr Hq0.
    generalize (Z.of_N (x `div` 10)) (Z.of_N (x `mod` 10)).
    intros q r Hdm Hr Hq0. lia. }
  rewrite pretty_N_go_step by lia.
  rewrite IH; [|apply N.div_lt; lia|lia].
  cbn [parseUintLoop].
  destruct (pretty_N_char_digit (x `mod` 10) Hm) as [-> ->].
  assert ((cutoff64 <=? Z.of_N (x `div` 10))%Z = false) as ->.
  { apply Z.leb_gt. lia. }
  rewrite <- Hdm.
  assert ((maxUint64 <? Z.of_N x)%Z = false) as ->; [|done].
  apply Z.ltb_ge. lia.
Qed.

Lemma ParseUint_pretty (p : positive) :
  (Z.pos p <= maxUint64)%Z ->
  exists c rest,
    pretty_N_go (N.pos p) "" = String c rest
    /\ isDigit c = true
    /\ ParseUint (String c rest) = inl (Z.pos p).
Proof.
  intros Hp.
  pose proof (parseUintLoop_pretty (N.pos p) "" Hp) as H.
  destruct (pretty_N_go (N.pos p) "") as [|c rest]; [done|].
  exists c, rest. split; [done|]. split; [|done].
  cbn in H. by destruct (isDigit c).
Qed.

(** [strconv.ParseInt] reads back what [%v] prints for an [int64]. *)
Lemma ParseInt_pretty (i : Z) :
  (- 2 ^ 63 <= i < 2 ^ 63)%Z -> ParseInt (pretty i) = inl i.
Proof.
  intros Hi.
  assert (Hmax : maxUint64 = 18446744073709551615%Z) by (by vm_compute).
  destruct i as [|p|p].
  - by vm_compute.
  - destruct (ParseUint_pretty p) as (c & rest & Hs & Hd & Hu); [lia|].
    change (pretty (Z.pos p)) with (pretty_N_go (N.pos p) "").
    rewrite Hs. unfold ParseInt.
    assert (Ascii.eqb c "+" = false) as ->.
    { apply Ascii.eqb_neq. by intros ->. }
    assert (Ascii.eqb c "-" = false) as ->.
    { apply Ascii.eqb_neq. by intros ->. }
    cbv beta iota. rewrite Hu. cbn [negb andb].
    assert ((2 ^ 63 <=? Z.pos p)%Z = false) as ->; [|done].
    apply Z.leb_gt. lia.
  - destruct (ParseUint_pretty p) as (c & rest & Hs & Hd & Hu); [lia|].
    change (pretty (Z.neg p))
      with (String "-" (pretty_N_go (N.pos p) "")).
    rewrite Hs. unfold ParseInt.
    change (Ascii.eqb "-" "+") with false.
    change (Ascii.eqb "-" "-") with true.
    cbv beta iota. rewrite Hu. cbn [negb andb].
    assert ((2 ^ 63 <? Z.pos p)%Z = false) as ->; [|done].
    apply Z.ltb_ge. lia.
Qed.

(** X10: the text [dumpCSV] prints for a value ([%v]) is read back by the
    decoding of [toRows] under the column type the value came from: an
    integer (of [int64], as [toRows] produces them) under INTEGER or
    TIMESTAMP, a boolean under BOOLEAN, a string under STRING. A null is
    not: it is printed as [<nil>], which a STRING column reads as that
    string and an INTEGER column refuses. *)
Theorem formatValue_decodes_back (names : list fieldType) (i : nat)
    (ft : fieldType) (result : gmap string value) :
  names !! i = Some ft ->
  (forall v : Z,
     ftype ft = "INTEGER" \/ ftype ft = "TIMESTAMP" ->
     (- 2 ^ 63 <= v < 2 ^ 63)%Z ->
     decodeCell names i (CString (formatValue (VInt v))) result
     = Ok (<[name ft := VInt v]> result))
  /\ (forall b : bool,
        ftype ft = "BOOLEAN" ->
        decodeCell names i (CString (formatValue (VBool b))) result
        = Ok (<[name ft := VBool b]> result))
  /\ (forall s : string,
        ftype ft = "STRING" ->
        decodeCell names i (CString (formatValue (VString s))) result
        = Ok (<[name ft := VString s]> result))
  /\ (ftype ft = "STRING" ->
      decodeCell names i (CString (formatValue VNil)) result
      = Ok (<[name ft := VString "<nil>"]> result))
  /\ (ftype ft = "INTEGER" ->
      decodeCell names i (CString (formatValue VNil)) result
      = Err (InvalidValue (name ft) "<nil>"
               (NumError "ParseInt" "<nil>" ErrSyntax))).
Proof.
  intros Hft. unfold decodeCell. rewrite Hft.
  split; [|split; [|split; [|split]]].
  - intros v Ht Hv.
    assert (String.eqb (ftype ft) "STRING" = false) as ->.
    { by destruct Ht as [-> | ->]. }
    assert (String.eqb (ftype ft) "INTEGER"
            || String.eqb (ftype ft) "TIMESTAMP" = true) as ->.
    { by destruct Ht as [-> | ->]. }
    cbn. unfold parseWith. by rewrite ParseInt_pretty.
  - intros b ->. by destruct b.
  - by intros s ->.
  - by intros ->.
  - by intros ->.
Qed.

End Dumper.

(** ** Schema flattening *)

(** A field that is no RECORD keeps its name and type. *)
Lemma walkFields_primitive (n t : string) (fs : list TableFieldSchema) :
  t <> "RECORD" -> walkFields "" (mkField n t fs) = (n, t).
Proof. intros H. cbn. by rewrite (eqb_false_of_ne _ _ H). Qed.


(** For a first nested field that is no RECORD and has a name, the
    flattened name repeats the nested field's name on both sides of the
    dot. *)
Lemma walkFields_record_name (parent c t : string)
    (fs siblings : list TableFieldSchema) :
  t <> "RECORD" -> c <> "" ->
  walkFields "" (mkField parent "RECORD" (mkField c t fs :: siblings))
  = (c +:+ "." +:+ c, t).
Proof.
  intros Ht Hc. cbn. by rewrite (eqb_false_of_ne _ _ Ht), (eqb_false_of_ne _ _ Hc).
Qed.

(** C1: the flattened name of a RECORD column.  On the schema
    [{a RECORD [{b STRING}; {c FLOAT}]}] the code resolves the type
    STRING of the first nested field and ignores the second, but the name
    it gives is "b.b": the parent's name "a" does not occur in it, so it
    is not the name "a.b" of the parent.child scheme. *)
Theorem walkFields_record_not_parent_child :
  walkFields "" nestedSchema = ("b.b", "STRING")
  /\ walkFields "" nestedSchema <> ("a" +:+ "." +:+ "b", "STRING")
  /\ fieldNames [nestedSchema] = [mkFieldType "b.b" "STRING"].
Proof. by vm_compute. Qed.

(** ** Job polling *)


Lemma waitJob_returns jobsGet pid jid : forall n k fuel,
  (forall j, (j < n)%nat -> jobDone (jobsGet (k + j)%nat) pid jid = Ok false) ->
  jobDone (jobsGet (k + n)%nat) pid jid <> Ok false ->
  (n < fuel)%nat ->
  waitJob fuel jobsGet pid jid k
  = Some (S (k + n), pollResult (jobDone (jobsGet (k + n)%nat) pid jid)).
Proof.
  induction n as [|n IH]; intros k fuel H Hlast Hf;
    (destruct fuel as [|fuel]; [lia|]); cbn.
  - rewrite Nat.add_0_r in *.
    by destruct (jobDone (jobsGet k) pid jid) as [[]| |].
  - rewrite <- (Nat.add_0_r k) at 1. rewrite (H 0%nat) by lia.
    replace (k + S n)%nat with (S k + n)%nat in * by lia.
    apply IH; [|done|lia].
    intros j Hj. replace (S k + j)%nat with (k + S j)%nat by lia.
    apply H. lia.
Qed.


(** ** Dataset ensure *)

Section Ensure.

Context {S : Type} (w : Warehouse S) (s : S) (datasetID : string).

Lemma hasDataset_true res :
  hasDataset datasetID res = true <-> datasetID ∈ Datasets res.
Proof. unfold hasDataset. by rewrite bool_decide_eq_true. Qed.

Lemma hasDataset_false res :
  hasDataset datasetID res = false <-> datasetID ∉ Datasets res.
Proof. unfold hasDataset. by rewrite bool_decide_eq_false. Qed.

Lemma searchPages_mono : forall fuel fuel' token r,
  searchPages fuel w s datasetID token = Some r ->
  (fuel <= fuel')%nat ->
  searchPages fuel' w s datasetID token = Some r.
Proof.
  induction fuel as [|fuel IH]; intros fuel' token r H Hle; [done|].
  destruct fuel' as [|fuel']; [lia|]. cbn in *.
  destruct (String.eqb token ""); [done|].
  destruct (listDo w s (Some token)) as [res|]; [|done].
  destruct (hasDataset datasetID res); [done|].
  apply IH; [done|lia].
Qed.

Lemma ensure_mono fuel fuel' r :
  datasetCreateIfNotExists fuel w s datasetID = Some r ->
  (fuel <= fuel')%nat ->
  datasetCreateIfNotExists fuel' w s datasetID = Some r.
Proof.
  unfold datasetCreateIfNotExists. intros H Hle.
  destruct (listDo w s None) as [res|]; [|done].
  destruct (hasDataset datasetID res); [done|].
  destruct (searchPages fuel w s datasetID _) as [r'|] eqn:Hs; [|done].
  by rewrite (searchPages_mono _ _ _ _ Hs Hle).
Qed.

Lemma searchPages_found : forall n token pages,
  token <> "" ->
  pagesFrom n w s (Some token) = Some pages ->
  listed datasetID pages ->
  forall fuel, (n <= fuel)%nat ->
  searchPages fuel w s datasetID token = Some (Ok true).
Proof.
  induction n as [|n IH]; intros token pages Ht Hp Hl fuel Hf; [done|].
  destruct fuel as [|fuel]; [lia|]. cbn in *.
  rewrite (eqb_false_of_ne _ _ Ht).
  destruct (listDo w s (Some token)) as [res|]; [|done].
  destruct (hasDataset datasetID res) eqn:Hh; [done|].
  apply hasDataset_false in Hh.
  destruct (String.eqb (NextPageToken res) "") eqn:Hn.
  - simplify_eq. apply Exists_cons in Hl as [?|Hl]; [done|].
    by apply Exists_nil in Hl.
  - apply String.eqb_neq in Hn.
    destruct (pagesFrom n w s _) as [ps|] eqn:Hps; [|done].
    cbn in Hp. simplify_eq.
    apply Exists_cons in Hl as [?|Hl]; [done|].
    apply (IH _ ps); [done..|lia].
Qed.

Lemma searchPages_absent : forall fuel token,
  token <> "" ->
  searchPages fuel w s datasetID token = Some (Ok false) ->
  exists pages,
    pagesFrom fuel w s (Some token) = Some pages
    /\ ~ listed datasetID pages.
Proof.
  induction fuel as [|fuel IH]; intros token Ht H; [done|]. cbn in *.
  rewrite (eqb_false_of_ne _ _ Ht) in H.
  destruct (listDo w s (Some token)) as [res|]; [|done].
  destruct (hasDataset datasetID res) eqn:Hh; [done|].
  apply hasDataset_false in Hh.
  destruct (String.eqb (NextPageToken res) "") eqn:Hn.
  - exists [res]. split; [done|].
    intros [?|Hl]%Exists_cons; [done|]. by apply Exists_nil in Hl.
  - apply String.eqb_neq in Hn.
    apply IH in H as (ps & -> & Hps); [|done].
    exists (res :: ps). split; [done|].
    by intros [?|?]%Exists_cons.
Qed.

(** A dataset that the listing shows is found, and nothing is created. *)
Lemma ensure_listed n pages :
  pagesFrom n w s None = Some pages ->
  listed datasetID pages ->
  forall fuel, (n <= fuel)%nat ->
  datasetCreateIfNotExists fuel w s datasetID = Some (s, [], Ok ()).
Proof.
  intros Hp Hl fuel Hf. unfold datasetCreateIfNotExists.
  destruct n as [|n]; [done|]. cbn in Hp.
  destruct (listDo w s None) as [res|]; [|done].
  destruct (hasDataset datasetID res) eqn:Hh; [done|].
  apply hasDataset_false in Hh.
  destruct (String.eqb (NextPageToken res) "") eqn:Hn.
  - simplify_eq. apply Exists_cons in Hl as [?|Hl]; [done|].
    by apply Exists_nil in Hl.
  - apply String.eqb_neq in Hn.
    destruct (pagesFrom n w s _) as [ps|] eqn:Hps; [|done].
    cbn in Hp. simplify_eq.
    apply Exists_cons in Hl as [?|Hl]; [done|].
    rewrite (searchPages_found n _ ps); [done..|lia].
Qed.

(** A creation call is made only after the whole listing was read
    without finding the dataset. *)
Lemma ensure_creates_absent fuel s' calls r :
  datasetCreateIfNotExists fuel w s datasetID = Some (s', calls, r) ->
  calls <> [] ->
  calls = [datasetID]
  /\ exists pages,
       pagesFrom (Datatypes.S fuel) w s None = Some pages
       /\ ~ listed datasetID pages.
Proof.
  unfold datasetCreateIfNotExists. intros H Hc. cbn.
  destruct (listDo w s None) as [res|]; [|by simplify_eq].
  destruct (hasDataset datasetID res) eqn:Hh; [by simplify_eq|].
  apply hasDataset_false in Hh.
  destruct (searchPages fuel w s datasetID _) as [[[]| |]|] eqn:Hs;
    try by simplify_eq.
  assert (calls = [datasetID]) as ->.
  { by destruct (insertDo w s datasetID) as [? []]; simplify_eq. }
  split; [done|].
  destruct (String.eqb (NextPageToken res) "") eqn:Hn.
  - exists [res]. split; [done|].
    intros [?|Hl]%Exists_cons; [done|]. by apply Exists_nil in Hl.
  - apply String.eqb_neq in Hn.
    apply searchPages_absent in Hs as (ps & -> & Hps); [|done].
    exists (res :: ps). split; [done|].
    by intros [?|?]%Exists_cons.
Qed.

End Ensure.

(** C8 as the code has it.  When the listing of the project, read
    through all its page tokens, shows the dataset, the function makes no
    creation call and returns success; it makes a creation call (one, for
    this dataset) only when the whole listing was read and no page shows
    the dataset; and after a call that returned success, on a service
    that lists the dataset it has just created, a second call finds the
    dataset: the two calls make at most one creation call. *)
Theorem datasetCreateIfNotExists_idempotent {S : Type} (w : Warehouse S)
    (s : S) (datasetID : string) :
  (forall n pages,
     pagesFrom n w s None = Some pages -> listed datasetID pages ->
     forall fuel, (n <= fuel)%nat ->
     datasetCreateIfNotExists fuel w s datasetID = Some (s, [], Ok ()))
  /\ (forall fuel s1 calls r,
        datasetCreateIfNotExists fuel w s datasetID = Some (s1, calls, r) ->
        calls <> [] ->
        calls = [datasetID]
        /\ exists pages,
             pagesFrom (Datatypes.S fuel) w s None = Some pages
             /\ ~ listed datasetID pages)
  /\ ((forall s', insertDo w s datasetID = (s', None) ->
         exists n pages,
           pagesFrom n w s' None = Some pages /\ listed datasetID pages) ->
      forall fuel s1 calls1,
        datasetCreateIfNotExists fuel w s datasetID
          = Some (s1, calls1, Ok ()) ->
        exists fuel2, forall fuel', (fuel2 <= fuel')%nat ->
          ensureTwice fuel' w s datasetID = Some (s1, calls1, Ok (), Ok ())
          /\ (length calls1 <= 1)%nat).
Proof.
  split; [intros n pages; apply ensure_listed|].
  split; [intros fuel s1 calls r; apply ensure_creates_absent|].
  intros Hserv fuel s1 calls1 H1.
  assert (Hsecond : exists n, forall fuel', (n <= fuel')%nat ->
            datasetCreateIfNotExists fuel' w s1 datasetID = Some (s1, [], Ok ())
            /\ (length calls1 <= 1)%nat).
  { pose proof H1 as H. unfold datasetCreateIfNotExists in H.
    destruct (listDo w s None) as [res|] eqn:Hl; [|done].
    destruct (hasDataset datasetID res) eqn:Hh.
    { simplify_eq. exists fuel. intros fuel' Hf. split; [|cbn; lia].
      by apply (ensure_mono w s1 datasetID fuel). }
    destruct (searchPages fuel w s datasetID _) as [[[]| |]|] eqn:Hs;
      try done.
    { simplify_eq. exists fuel. intros fuel' Hf. split; [|cbn; lia].
      by apply (ensure_mono w s1 datasetID fuel). }
    destruct (insertDo w s datasetID) as [s' [err|]] eqn:Hi; [done|].
    simplify_eq. destruct (Hserv s1 eq_refl) as (n & pages & Hp & Hlisted).
    exists n. intros fuel' Hf. split; [|cbn; lia].
    by apply (ensure_listed w s1 datasetID n pages). }
  destruct Hsecond as (n & Hn).
  exists (Nat.max fuel n). intros fuel' Hf. split; [|apply (Hn fuel'); lia].
  unfold ensureTwice.
  rewrite (ensure_mono w s datasetID fuel fuel' _ H1) by lia.
  destruct (Hn fuel') as [-> _]; [lia|]. by rewrite app_nil_r.
Qed.

(** C8 as stated fails when the service refuses the creation: both calls
    read the listing, miss the dataset and make a creation call. *)
Lemma ensureTwice_refused_creates_twice :
  ~ (forall (w : Warehouse unit) (fuel : nat) (datasetID : string) s calls r1 r2,
       ensureTwice fuel w () datasetID = Some (s, calls, r1, r2) ->
       (length calls <= 1)%nat).
Proof.
  intros H.
  specialize (H refusing 1%nat "logs" () ["logs"; "logs"]
                (Err (External "Access Denied"))
                (Err (External "Access Denied")) eq_refl).
  cbn in H. lia.
Qed.

(** ** The properties on the sample inputs *)

Example ParseInt_samples :
  ParseInt "-9223372036854775808" = inl (- 2 ^ 63)%Z
  /\ ParseInt "9223372036854775808" = inr ErrRange
  /\ ParseInt "+12" = inl 12%Z
  /\ ParseInt "1_0" = inr ErrSyntax
  /\ ParseInt "" = inr ErrSyntax
  /\ ParseInt "0x10" = inr ErrSyntax.
Proof. by vm_compute. Qed.

Example ParseBool_samples :
  ParseBool "T" = inl true /\ ParseBool "false" = inl false
  /\ ParseBool "yes" = inr ErrSyntax.
Proof. by vm_compute. Qed.

(** The pages of the sample query answer the requests the loop makes. *)
Example sample_pages_answered :
  pageRequests "job_1" "t1" 1 (samplePages (composite := Empty_set))
  = sampleRequests
  /\ answered sampleBigQuery "p" "job_1" 3 [] "t1" 1
       (samplePages (composite := Empty_set))
  /\ pagesRows (samplePages (composite := Empty_set))
     = [sampleRow2; sampleRow3].
Proof. by vm_compute. Qed.

(** The sample query written as tab-separated values with a header. *)
Example Dump_sample_csv :
  Dump (float64 := Z) (composite := Empty_set) integralParseFloat
    integralFormatFloat noComposite constantJSON constantJSON keysInMapOrder
    plainField 3 sampleBigQuery noFaults "p" "key.json" "out.csv" "CSV" "tab"
    "SELECT 1" "" false true 0 false
  = Some ([mkPageRequest "job_1" "t1" 1; mkPageRequest "job_1" "t2" 2],
          [FsCreate "out.csv";
           FsAppend "out.csv"
             ("id" +:+ tab +:+ "name" +:+ newline
              +:+ "1" +:+ tab +:+ "ann" +:+ newline
              +:+ "2" +:+ tab +:+ "<nil>" +:+ newline
              +:+ "3" +:+ tab +:+ "cy" +:+ newline)],
          Ok ()).
Proof. by vm_compute. Qed.


Lemma Dump_pagination_witness :
  queryDo (sampleBigQuery (composite := Empty_set)) "p"
    (queryConf "SELECT 1" 0 false) = inl sampleResponse
  /\ (0 <= TotalRows (sampleResponse (composite := Empty_set)) < 2 ^ 64)%Z
  /\ fetchRecords (float64 := Z) (composite := Empty_set)
       integralParseFloat 3 sampleBigQuery "p" "key.json" "out.json" "json"
       "" "SELECT 1" 0 false
     = Some (sampleRequests, Ok ("json", "", sampleRecords))
  /\ Z.of_nat (length (sampleRecords (float64 := Z) (composite := Empty_set)))
     = 3%Z.
Proof.
  assert (Hrange : (0 <= TotalRows (sampleResponse (composite := Empty_set))
                    < 2 ^ 64)%Z) by (by vm_compute).
  assert (Hfetch : fetchRecords (float64 := Z) (composite := Empty_set)
            integralParseFloat 3 sampleBigQuery "p" "key.json" "out.json"
            "json" "" "SELECT 1" 0 false
          = Some (sampleRequests, Ok ("json", "", sampleRecords)))
    by (vm_compute; reflexivity).
  split; [reflexivity|]. split; [exact Hrange|]. split; [exact Hfetch|].
  destruct (Dump_pagination (float64 := Z) (composite := Empty_set)
              integralParseFloat integralFormatFloat noComposite constantJSON
              constantJSON keysInMapOrder plainField 3 sampleBigQuery noFaults
              "p" "key.json" "out.json" "json" "" "SELECT 1" "" false false 0
              false sampleResponse eq_refl Hrange) as [Hcount _].
  exact (proj1 (Hcount sampleRequests "json" "" sampleRecords Hfetch)).
Defined.


Lemma dumpCSV_field_order_witness :
  (forall m : gmap string (value (float64 := Z) (composite := Empty_set)),
     keysInMapOrder m ≡ₚ (map_to_list m).*1)
  /\ Sorted String.le (csvFields keysInMapOrder
                         (sampleRecord (float64 := Z) (composite := Empty_set))).
Proof.
  split; [intros m; reflexivity|].
  exact (proj1 (dumpCSV_field_order (float64 := Z) (composite := Empty_set)
                  integralFormatFloat noComposite keysInMapOrder
                  (fun m => reflexivity _) sampleRecord [] _ _
                  eq_refl eq_refl)).
Defined.


Lemma dumpCSV_empty_panics_witness :
  "p" <> "" /\ "key.json" <> "" /\ "out.csv" <> "" /\ "SELECT 1" <> ""
  /\ clientErr (emptyBigQuery (composite := Empty_set)) = None
  /\ queryDo (emptyBigQuery (composite := Empty_set)) "p"
       (queryConf "SELECT 1" 0 false) = inl emptyResponse
  /\ Errors (emptyResponse (composite := Empty_set)) = []
  /\ TotalRows (emptyResponse (composite := Empty_set)) = 0%Z
  /\ Rows (emptyResponse (composite := Empty_set)) = []
  /\ Schema (emptyResponse (composite := Empty_set)) = Some sampleSchema
  /\ Dump (float64 := Z) integralParseFloat integralFormatFloat noComposite
       constantJSON constantJSON keysInMapOrder plainField 1 emptyBigQuery
       noFaults "p" "key.json" "out.csv" "csv" "" "SELECT 1" "" false false 0
       false = Some ([], [], Panic).
Proof.
  assert (Hne : forall a b, String a b <> "") by (intros a b; discriminate).
  repeat (split; [first [reflexivity | apply Hne]|]).
  destruct (dumpCSV_empty_panics (float64 := Z) (composite := Empty_set)
              integralParseFloat integralFormatFloat noComposite constantJSON
              constantJSON keysInMapOrder plainField 1 emptyBigQuery noFaults
              "p" "key.json" "out.csv" "csv" "" "SELECT 1" "" false false 0
              false emptyResponse sampleSchema)
    as (_ & _ & Hdump).
  exact (proj1 (Hdump (Hne _ _) (Hne _ _) (Hne _ _) (Hne _ _) eq_refl eq_refl
                  eq_refl eq_refl eq_refl eq_refl) eq_refl).
Defined.



Lemma datasetCreateIfNotExists_idempotent_witness :
  (forall s', insertDo twoPages ["sales"] "logs" = (s', None) ->
     exists n pages,
       pagesFrom n twoPages s' None = Some pages /\ listed "logs" pages)
  /\ datasetCreateIfNotExists 2 twoPages ["sales"] "logs"
     = Some (["sales"; "logs"], ["logs"], Ok ())
  /\ exists fuel2, forall fuel', (fuel2 <= fuel')%nat ->
       ensureTwice fuel' twoPages ["sales"] "logs"
       = Some (["sales"; "logs"], ["logs"], Ok (), Ok ())
       /\ (length ["logs"] <= 1)%nat.
Proof.
  assert (Hserv : forall s', insertDo twoPages ["sales"] "logs" = (s', None) ->
            exists n pages,
              pagesFrom n twoPages s' None = Some pages
              /\ listed "logs" pages).
  { intros s' H. injection H as <-.
    exists 2%nat, [mkDatasetList ["sales"] "next"; mkDatasetList ["logs"] ""].
    split; [reflexivity|].
    apply Exists_cons_tl, Exists_cons_hd. in_list. }
  split; [exact Hserv|]. split; [reflexivity|].
  exact (proj2 (proj2 (datasetCreateIfNotExists_idempotent twoPages ["sales"]
                         "logs")) Hserv 2%nat ["sales"; "logs"] ["logs"]
           eq_refl).
Defined.


(** ** More on schema flattening *)




(** ** More on the dataset step *)

Lemma searchPages_err {S} (w : Warehouse S) (s0 : S) (datasetID : string) :
  forall fuel token e,
  searchPages fuel w s0 datasetID token = Some (Err e) ->
  exists tok, tok <> "" /\ listDo w s0 (Some tok) = inr e.
Proof.
  induction fuel as [|fuel IH]; intros token e H; [done|]. cbn in H.
  destruct (String.eqb token "") eqn:Ht; [done|].
  apply String.eqb_neq in Ht.
  destruct (listDo w s0 (Some token)) as [res|err] eqn:Hl.
  - destruct (hasDataset datasetID res); [done|]. by apply IH in H.
  - simplify_eq. by exists token.
Qed.

(** X12: the ways [datasetCreateIfNotExists] fails: with the error of the
    first list request, wrapped as "Error checking datasets"; with the
    bare error of a list request for a later page; or with the error of
    the creation call. After a failed list request nothing has been
    created and the service is as it was. *)
Theorem datasetCreateIfNotExists_failures {S : Type} (w : Warehouse S)
    (s0 s1 : S) (datasetID : string) (fuel : nat) (calls : list string)
    (e : error) :
  datasetCreateIfNotExists fuel w s0 datasetID = Some (s1, calls, Err e) ->
  (s1 = s0 /\ calls = []
   /\ exists cause,
        listDo w s0 None = inr cause
        /\ e = Wrapped "Error checking datasets" cause)
  \/ (s1 = s0 /\ calls = []
      /\ exists token, token <> "" /\ listDo w s0 (Some token) = inr e)
  \/ (calls = [datasetID] /\ insertDo w s0 datasetID = (s1, Some e)).
Proof.
  unfold datasetCreateIfNotExists. intros H.
  destruct (listDo w s0 None) as [res|cause] eqn:Hl.
  - destruct (hasDataset datasetID res); [done|].
    destruct (searchPages fuel w s0 datasetID _) as [[[]|err|]|] eqn:Hs;
      try done.
    + right. right.
      destruct (insertDo w s0 datasetID) as [s' [err|]]; by simplify_eq.
    + simplify_eq. right. left. split; [done|]. split; [done|].
      by apply searchPages_err in Hs.
  - simplify_eq. left. by eauto.
Qed.

(** * The loader *)

Lemma pollResult_ok r : pollResult r = Ok () -> r <> Ok false -> r = Ok true.
Proof. by destruct r as [[]| |]. Qed.

(** The loop returns only at a poll that does not say "not done", all
    polls before having said so. *)
Lemma waitJob_inv jobsGet pid jid : forall fuel k m r,
  waitJob fuel jobsGet pid jid k = Some (m, r) ->
  exists n,
    m = S (k + n) /\ (n < fuel)%nat
    /\ r = pollResult (jobDone (jobsGet (k + n)%nat) pid jid)
    /\ jobDone (jobsGet (k + n)%nat) pid jid <> Ok false
    /\ forall j, (j < n)%nat -> jobDone (jobsGet (k + j)%nat) pid jid = Ok false.
Proof.
  induction fuel as [|fuel IH]; intros k m r H; [done|]. cbn in H.
  destruct (jobDone (jobsGet k) pid jid) as [[]| |] eqn:Hk.
  - simplify_eq. exists 0%nat. rewrite Nat.add_0_r, Hk.
    repeat split; [lia|done|]. intros j Hj. lia.
  - apply IH in H as (n & -> & Hn & -> & Hlast & Hbefore).
    exists (S n). replace (k + S n)%nat with (S k + n)%nat by lia.
    repeat split; [lia|done|].
    intros [|j] Hj; [by rewrite Nat.add_0_r|].
    replace (k + S j)%nat with (S k + j)%nat by lia. apply Hbefore. lia.
  - simplify_eq. exists 0%nat. rewrite Nat.add_0_r, Hk.
    repeat split; [lia|done|]. intros j Hj. lia.
  - simplify_eq. exists 0%nat. rewrite Nat.add_0_r, Hk.
    repeat split; [lia|done|]. intros j Hj. lia.
Qed.

(** X13: the loop of [Load] returns at tick [m] with [r] exactly when poll
    number [m - 1] is the first that does not say "not done" and [r] is
    its verdict; and it returns success only for a job whose state is DONE
    and whose error list is empty. *)
Theorem waitJob_returns_iff (jobsGet : nat -> Job + error) (pid jid : string)
    (fuel m : nat) (r : outcome unit) :
  (waitJob fuel jobsGet pid jid 0 = Some (m, r)
   <-> exists n,
         m = S n /\ (n < fuel)%nat
         /\ (forall k, (k < n)%nat -> jobDone (jobsGet k) pid jid = Ok false)
         /\ jobDone (jobsGet n) pid jid <> Ok false
         /\ r = pollResult (jobDone (jobsGet n) pid jid))
  /\ (waitJob fuel jobsGet pid jid 0 = Some (m, Ok ()) ->
      exists st,
        jobsGet (pred m) = inl (mkJob (Some st))
        /\ State st = "DONE" /\ StatusErrors st = []).
Proof.
  split; [split|].
  - intros (n & -> & Hn & -> & Hlast & Hbefore)%waitJob_inv.
    exists n. by repeat split.
  - intros (n & -> & Hn & Hbefore & Hlast & ->).
    by apply (waitJob_returns jobsGet pid jid n 0%nat).
  - intros (n & -> & _ & Hr & Hlast & _)%waitJob_inv.
    cbn [Nat.pred Nat.add] in *.
    symmetry in Hr. apply pollResult_ok in Hr; [|done].
    clear Hlast. unfold jobDone in Hr.
    destruct (jobsGet n) as [[[st|]]|]; try done.
    exists st. split; [done|].
    revert Hr. cbn [Status].
    destruct (StatusErrors st) as [|e l]; cbn; [|done].
    destruct (String.eqb (State st) "PENDING"
              || String.eqb (State st) "RUNNING"); [done|].
    destruct (String.eqb (State st) "DONE") eqn:Hs; [|done].
    by apply String.eqb_eq in Hs.
Qed.

(** [HasSuffix] is "ends with". *)
Lemma HasSuffix_spec str suffix :
  Loader.HasSuffix str suffix = true <-> exists stem, str = stem +:+ suffix.
Proof.
  split.
  - induction str as [|c rest IH]; cbn [Loader.HasSuffix].
    + destruct (String.eqb "" suffix) eqn:He; [|done].
      apply String.eqb_eq in He as <-. by exists "".
    + destruct (String.eqb (String c rest) suffix) eqn:He.
      * apply String.eqb_eq in He as <-. by exists "".
      * intros [stem ->]%IH. by exists (String c stem).
  - intros [stem ->]. induction stem as [|c stem IH].
    + change ("" +:+ suffix) with suffix.
      destruct suffix; cbn [Loader.HasSuffix]; by rewrite String.eqb_refl.
    + change (String c stem +:+ suffix) with (String c (stem +:+ suffix)).
      cbn [Loader.HasSuffix]. by destruct (String.eqb _ suffix).
Qed.

Lemma json_not_csv stem stem' : stem +:+ ".json" <> stem' +:+ ".csv".
Proof.
  revert stem'. induction stem as [|c stem IH]; intros stem' H.
  - do 6 (destruct stem' as [|? stem']; [done|]); done.
  - destruct stem' as [|c' stem'].
    + do 5 (destruct stem as [|? stem]; [done|]); done.
    + injection H as _ H. by apply IH in H.
Qed.

(** X14: the source format is read off the end of the file name, in lower
    case only: a name ending in ".json" is newline-delimited JSON, a name
    ending in ".csv" is CSV (no name ends in both), every other name is
    refused. *)
Theorem sourceFormat_suffix (sourceFile : string) :
  (Loader.sourceFormat sourceFile = inl "NEWLINE_DELIMITED_JSON"
   <-> exists stem, sourceFile = stem +:+ ".json")
  /\ (Loader.sourceFormat sourceFile = inl "CSV"
      <-> exists stem, sourceFile = stem +:+ ".csv")
  /\ (Loader.sourceFormat sourceFile = inr (External "Unsupported source file format")
      <-> ~ (exists stem, sourceFile = stem +:+ ".json")
          /\ ~ (exists stem, sourceFile = stem +:+ ".csv")).
Proof.
  unfold Loader.sourceFormat.
  destruct (Loader.HasSuffix sourceFile ".json") eqn:Hj;
    [apply HasSuffix_spec in Hj|];
    (destruct (Loader.HasSuffix sourceFile ".csv") eqn:Hc;
       [apply HasSuffix_spec in Hc|]).
  - destruct Hj as [stem ->], Hc as [stem' Hc]. by apply json_not_csv in Hc.
  - assert (Hn : ~ exists stem, sourceFile = stem +:+ ".csv").
    { intros Hx%HasSuffix_spec. congruence. }
    split; [done|]. split; split; try done. by intros [? _].
  - assert (Hn : ~ exists stem, sourceFile = stem +:+ ".json").
    { intros Hx%HasSuffix_spec. congruence. }
    split; [split; done|]. split; [done|]. split; [done|]. by intros [_ ?].
  - assert (Hn : ~ exists stem, sourceFile = stem +:+ ".json").
    { intros Hx%HasSuffix_spec. congruence. }
    assert (Hn' : ~ exists stem, sourceFile = stem +:+ ".csv").
    { intros Hx%HasSuffix_spec. congruence. }
    split; [split; done|]. split; [split; done|]. done.
Qed.

Section LoadProps.

Context {S : Type} (w : Loader.World S) (s : S).
Import Loader.

Lemma bind_inv {A B} (m : traced A) (k : A -> traced B) t r :
  (m ≫= k) = Some (t, r) ->
  (exists t1 a t2, m = Some (t1, Ok a) /\ k a = Some (t2, r) /\ t = t1 ++ t2)
  \/ (exists e, m = Some (t, Err e) /\ r = Err e)
  \/ (m = Some (t, Panic) /\ r = Panic).
Proof.
  unfold mbind, traced_bind. destruct m as [[t1 [a| |]]|]; try done.
  - destruct (k a) as [[t2 r']|] eqn:Hk; [|done].
    intros [= <- ->]. left. by exists t1, a, t2.
  - intros [= <- <-]. right; left. by eexists.
  - intros [= <- <-]. by right; right.
Qed.

Lemma orFail_inv {A} (x : A + error) t r :
  orFail x = Some (t, r) ->
  t = [] /\ r = match x with inl a => Ok a | inr e => Err e end.
Proof. destruct x; cbn; by intros [= <- <-]. Qed.
Lemma orWrap_inv {A} c (x : A + error) t r :
  orWrap c x = Some (t, r) ->
  t = [] /\ r = match x with inl a => Ok a | inr e => Err (Wrapped c e) end.
Proof. destruct x; cbn; by intros [= <- <-]. Qed.
Lemma noErr_inv (x : option error) t r :
  noErr x = Some (t, r) ->
  t = [] /\ r = match x with None => Ok () | Some e => Err e end.
Proof. destruct x; cbn; by intros [= <- <-]. Qed.
Lemma noErrWrap_inv c (x : option error) t r :
  noErrWrap c x = Some (t, r) ->
  t = [] /\ r = match x with None => Ok () | Some e => Err (Wrapped c e) end.
Proof. destruct x; cbn; by intros [= <- <-]. Qed.
Lemma mret_inv {A} (a : A) t r :
  (mret a : traced A) = Some (t, r) -> t = [] /\ r = Ok a.
Proof. by intros [= <- <-]. Qed.
Lemma emit_inv ev t r : emit ev = Some (t, r) -> t = [ev] /\ r = Ok ().
Proof. by intros [= <- <-]. Qed.
Lemma oauthClient_inv f t r :
  oauthClient w f = Some (t, r) ->
  t = [ReadFile f]
  /\ r = match readFile w f with
         | inr e => Err e
         | inl by_ => match jwtConfigFromJSON w by_ with
                      | Some e => Err e
                      | None => Ok ()
                      end
         end.
Proof.
  unfold oauthClient. cbn.
  destruct (readFile w f) as [by_|e]; cbn.
  - destruct (jwtConfigFromJSON w by_); cbn; by intros [= <- <-].
  - by intros [= <- <-].
Qed.

Lemma ensure_calls fuel d s1 calls r :
  datasetCreateIfNotExists fuel (warehouse w) s d = Some (s1, calls, r) ->
  calls = [] \/ calls = [d].
Proof.
  unfold datasetCreateIfNotExists. intros H.
  destruct (listDo _ _ _); [|unfold fail in H; simplify_eq; by left].
  destruct (hasDataset _ _); [simplify_eq; by left|].
  destruct (searchPages _ _ _ _ _) as [[[]| |]|]; simplify_eq; try by left.
  destruct (insertDo _ _ _) as [? []]; simplify_eq; by right.
Qed.

Lemma ensureDataset_inv fuel d t r :
  ensureDataset fuel w s d = Some (t, r) ->
  exists s1 calls r0,
    datasetCreateIfNotExists fuel (warehouse w) s d = Some (s1, calls, r0)
    /\ (calls = [] \/ calls = [d])
    /\ t = CreateDataset <$> calls
    /\ r = match r0 with
           | Ok _ => Ok ()
           | Err e => Err (Wrapped "Error checking/creating dataset" e)
           | Panic => Panic
           end.
Proof.
  unfold ensureDataset.
  destruct (datasetCreateIfNotExists _ _ _ _) as [[[s1 calls] r0]|] eqn:H;
    [|done].
  intros Heq. exists s1, calls, r0. split; [done|].
  split; [by eapply ensure_calls|].
  destruct r0; by simplify_eq.
Qed.


Ltac step H Hm :=
  apply bind_inv in H as [(?t & ?a & ?t' & Hm & H & ->) | [(?e & Hm & ->) | (Hm & ->)]].
Ltac prim Hm :=
  first [ apply orFail_inv in Hm as [-> Hm]
        | apply orWrap_inv in Hm as [-> Hm]
        | apply noErr_inv in Hm as [-> Hm]
        | apply noErrWrap_inv in Hm as [-> Hm]
        | apply emit_inv in Hm as [-> Hm]
        | apply mret_inv in Hm as [-> Hm]
        | apply oauthClient_inv in Hm as [-> Hm] ].

Ltac tr Hproxy Hcalls :=
  unfold loadPrefix; rewrite ?Hproxy;
  try (destruct Hcalls as [-> | ->]); reflexivity.
Ltac early0 Hproxy :=
  left; split; [done|]; exists []; split; [by left|];
  unfold loadPrefix; rewrite ?Hproxy; eexists; cbn; reflexivity.
Ltac early1 Hproxy Hcalls calls :=
  left; split; [done|]; exists calls; split; [done|];
  unfold loadPrefix; rewrite ?Hproxy; destruct Hcalls as [-> | ->];
  eexists; cbn; reflexivity.

(** The stages of [Load], read off its trace. *)
Lemma Load_inv (fuel : nat)
    (projectID datasetID tableID jwtFile schemaFile sourceFile proxy : string)
    (trace : list event) (r : outcome unit) :
  Load fuel w s projectID datasetID tableID jwtFile schemaFile sourceFile proxy
    = Some (trace, r) ->
  (r <> Ok ()
   /\ exists calls,
        (calls = [] \/ calls = [datasetID])
        /\ trace `prefix_of`
             loadPrefix proxy jwtFile calls schemaFile sourceFile)
  \/ exists s1 calls schemaBytes fields format confBytes data,
       datasetCreateIfNotExists fuel (warehouse w) s datasetID
         = Some (s1, calls, Ok ())
       /\ sourceFormat sourceFile = inl format
       /\ readFile w schemaFile = inl schemaBytes
       /\ unmarshalFields w schemaBytes = inl fields
       /\ marshalConf w (jobConfOf format fields projectID datasetID tableID)
          = inl confBytes
       /\ readFile w sourceFile = inl data
       /\ ((trace = loadPrefix proxy jwtFile calls schemaFile sourceFile
                    ++ [Do (initRequest projectID confBytes data)]
            /\ r <> Ok ())
           \/ exists res loc,
                clientDo w [] (initRequest projectID confBytes data) = inl res
                /\ StatusCode res = StatusOK
                /\ Location res = inl loc
                /\ ((trace = loadPrefix proxy jwtFile calls schemaFile
                               sourceFile
                             ++ [Do (initRequest projectID confBytes data);
                                 Do (dataRequest loc data)]
                     /\ r <> Ok ())
                    \/ exists res2 body job n,
                         clientDo w [initRequest projectID confBytes data]
                           (dataRequest loc data) = inl res2
                         /\ StatusCode res2 = StatusOK
                         /\ Body res2 = inl body
                         /\ unmarshalJob w body = inl (Some (projectID, job))
                         /\ trace = loadPrefix proxy jwtFile calls schemaFile
                                      sourceFile
                                    ++ [Do (initRequest projectID confBytes
                                              data);
                                        Do (dataRequest loc data);
                                        Polled (Datatypes.S n)]
                         /\ (forall j, (j < n)%nat ->
                               jobDone (jobsGet w j) projectID job = Ok false)
                         /\ jobDone (jobsGet w n) projectID job <> Ok false
                         /\ r = pollResult
                                  (jobDone (jobsGet w n) projectID job))).
Proof.
  intros H. unfold Load in H.
  destruct (_ || _);
    [unfold fail in H; simplify_eq; left; split; [done|]; exists [];
     split; [by left|]; by eexists|].
  destruct (String.eqb proxy "") eqn:Hproxy; cbn [negb] in H.
  all: step H Hm; prim Hm; [|early0 Hproxy..].
  all: destruct (sourceFormat sourceFile) as [format|] eqn:Hfmt; [|done];
    simplify_eq.
  all: step H Hm; prim Hm; [clear Hm|done..].
  all: step H Hm; prim Hm; [|early0 Hproxy..].
  all: destruct (readFile w jwtFile) as [keyBytes|]; [|done].
  all: destruct (jwtConfigFromJSON w keyBytes); [done|]; clear Hm.
  all: step H Hm; apply ensureDataset_inv in Hm
         as (s1 & calls & r0 & Hens & Hcalls & -> & Hm);
       [|early1 Hproxy Hcalls calls..].
  all: destruct r0 as [[]| |]; [|done..]; clear Hm.
  all: step H Hm; prim Hm; [clear Hm|done..].
  all: step H Hm; prim Hm; [|early1 Hproxy Hcalls calls..].
  all: destruct (readFile w schemaFile) as [schemaBytes|] eqn:Hschema; [|done];
       simplify_eq.
  all: step H Hm; prim Hm; [|early1 Hproxy Hcalls calls..].
  all: destruct (unmarshalFields w schemaBytes) as [fields|] eqn:Hfields;
       [|done]; simplify_eq.
  all: step H Hm; prim Hm; [|early1 Hproxy Hcalls calls..].
  all: fold (jobConfOf format fields projectID datasetID tableID) in *.
  all: destruct (marshalConf w _) as [confBytes|] eqn:Hconf; [|done];
       simplify_eq.
  all: step H Hm; prim Hm; [clear Hm|done..].
  all: step H Hm; prim Hm; [|early1 Hproxy Hcalls calls..].
  all: destruct (readFile w sourceFile) as [data|] eqn:Hdata; [|done];
       simplify_eq.
  all: step H Hm; prim Hm; [|early1 Hproxy Hcalls calls..].
  all: destruct (newRequest w "POST" (uploadURL projectID)); [done|]; clear Hm.
  all: step H Hm; prim Hm; [clear Hm|done..].
  all: right; exists s1, calls, schemaBytes, fields, format, confBytes, data.
  all: do 6 (split; [done|]).
  all: step H Hm; prim Hm; [|left; split; [tr Hproxy Hcalls|done]..].
  all: destruct (clientDo w [] _) as [res|] eqn:Hres; [|done]; simplify_eq.
  all: destruct (StatusCode res =? StatusOK)%Z eqn:Hcode; cbn [negb] in H;
       [|unfold fail in H; simplify_eq; left; split; [tr Hproxy Hcalls|done]].
  all: apply Z.eqb_eq in Hcode.
  all: step H Hm; prim Hm; [|left; split; [tr Hproxy Hcalls|done]..].
  all: destruct (Location res) as [loc|] eqn:Hloc; [|done]; simplify_eq.
  all: step H Hm; prim Hm; [|left; split; [tr Hproxy Hcalls|done]..].
  all: destruct (newRequest w "POST" loc); [done|]; clear Hm.
  all: step H Hm; prim Hm; [clear Hm|done..].
  all: right; exists res, loc.
  all: split; [done|]; split; [done|]; split; [done|].
  all: step H Hm; prim Hm; [|left; split; [tr Hproxy Hcalls|done]..].
  all: destruct (clientDo w [_] _) as [res2|] eqn:Hres2; [|done]; simplify_eq.
  all: destruct (StatusCode res2 =? StatusOK)%Z eqn:Hcode2; cbn [negb] in H;
       [|unfold fail in H; simplify_eq; left; split; [tr Hproxy Hcalls|done]].
  all: apply Z.eqb_eq in Hcode2.
  all: step H Hm; prim Hm; [|left; split; [tr Hproxy Hcalls|done]..].
  all: destruct (Body res2) as [body|] eqn:Hbody; [|done]; simplify_eq.
  all: step H Hm; prim Hm; [|left; split; [tr Hproxy Hcalls|done]..].
  all: destruct (unmarshalJob w body) as [[[jobProject job]|]|] eqn:Hjob;
       [| |done]; simplify_eq;
       [|unfold panic in H; simplify_eq; left; split; [tr Hproxy Hcalls|done]].
  all: destruct (String.eqb jobProject projectID) eqn:Hpid; cbn [negb] in H;
       [|unfold fail in H; simplify_eq; left; split; [tr Hproxy Hcalls|done]].
  all: apply String.eqb_eq in Hpid; subst jobProject.
  all: unfold pollJob in H.
  all: destruct (waitJob fuel (jobsGet w) projectID job 0) as [[ticks r']|]
         eqn:Hwait; [|done]; simplify_eq.
  all: apply waitJob_inv in Hwait as (n & -> & _ & -> & Hlast & Hbefore).
  all: right; exists res2, body, job, n.
  all: do 4 (split; [done|]).
  all: split; [tr Hproxy Hcalls|done].
Qed.

(** X15: how far a call of [Load] gets, and what it has done by then.
    Either it fails before the first request, having done a first part of
    [loadPrefix] (proxy, key file, at most one creation call for this
    dataset, schema file, source file, in this order) and nothing else; or
    the dataset step succeeded, the schema was parsed and both files were
    read, and the first request, with the configuration as body and the
    size of the data in its header, was sent. The data is sent, to the
    location of the first answer, only when that answer has status 200 and
    a location; and the job is polled only when the second answer has
    status 200 and names a job of the same project, the value returned
    then being the verdict of the first poll that does not say "not done". *)
Theorem Load_progress (fuel : nat)
    (projectID datasetID tableID jwtFile schemaFile sourceFile proxy : string)
    (trace : list event) (r : outcome unit) :
  Load fuel w s projectID datasetID tableID jwtFile schemaFile sourceFile proxy
    = Some (trace, r) ->
  (r <> Ok ()
   /\ exists calls,
        (calls = [] \/ calls = [datasetID])
        /\ trace `prefix_of`
             loadPrefix proxy jwtFile calls schemaFile sourceFile)
  \/ exists s1 calls schemaBytes fields format confBytes data,
       datasetCreateIfNotExists fuel (warehouse w) s datasetID
         = Some (s1, calls, Ok ())
       /\ sourceFormat sourceFile = inl format
       /\ readFile w schemaFile = inl schemaBytes
       /\ unmarshalFields w schemaBytes = inl fields
       /\ marshalConf w (jobConfOf format fields projectID datasetID tableID)
          = inl confBytes
       /\ readFile w sourceFile = inl data
       /\ ((trace = loadPrefix proxy jwtFile calls schemaFile sourceFile
                    ++ [Do (initRequest projectID confBytes data)]
            /\ r <> Ok ())
           \/ exists res loc,
                clientDo w [] (initRequest projectID confBytes data) = inl res
                /\ StatusCode res = StatusOK
                /\ Location res = inl loc
                /\ ((trace = loadPrefix proxy jwtFile calls schemaFile
                               sourceFile
                             ++ [Do (initRequest projectID confBytes data);
                                 Do (dataRequest loc data)]
                     /\ r <> Ok ())
                    \/ exists res2 body job n,
                         clientDo w [initRequest projectID confBytes data]
                           (dataRequest loc data) = inl res2
                         /\ StatusCode res2 = StatusOK
                         /\ Body res2 = inl body
                         /\ unmarshalJob w body = inl (Some (projectID, job))
                         /\ trace = loadPrefix proxy jwtFile calls schemaFile
                                      sourceFile
                                    ++ [Do (initRequest projectID confBytes
                                              data);
                                        Do (dataRequest loc data);
                                        Polled (Datatypes.S n)]
                         /\ (forall j, (j < n)%nat ->
                               jobDone (jobsGet w j) projectID job = Ok false)
                         /\ jobDone (jobsGet w n) projectID job <> Ok false
                         /\ r = pollResult
                                  (jobDone (jobsGet w n) projectID job))).
Proof. apply Load_inv. Qed.

Lemma omap_prefix {A B} (f : A -> option B) (l1 l2 : list A) :
  l1 `prefix_of` l2 -> omap f l1 `prefix_of` omap f l2.
Proof. intros [k ->]. rewrite omap_app. by eexists. Qed.

(** Every trace of [Load] is a first part of one full run. *)
Lemma Load_trace_shape (fuel : nat)
    (projectID datasetID tableID jwtFile schemaFile sourceFile proxy : string)
    (trace : list event) (r : outcome unit) :
  Load fuel w s projectID datasetID tableID jwtFile schemaFile sourceFile proxy
    = Some (trace, r) ->
  exists calls rest,
    (calls = [] \/ calls = [datasetID])
    /\ (rest = [] \/ (exists a, rest = [Do a])
        \/ (exists a b, rest = [Do a; Do b])
        \/ (exists a b n, rest = [Do a; Do b; Polled n]))
    /\ trace `prefix_of`
         loadPrefix proxy jwtFile calls schemaFile sourceFile ++ rest
    /\ (r = Ok () ->
        trace = loadPrefix proxy jwtFile calls schemaFile sourceFile ++ rest
        /\ exists a b n, rest = [Do a; Do b; Polled n]).
Proof.
  intros H. apply Load_inv in H
    as [[Hne (calls & Hcalls & Hpre)]
       | (s1 & calls & schemaBytes & fields & format & confBytes & data
          & H1 & _ & _ & _ & _ & _
          & [[-> Hne]
            | (res & loc & _ & _ & _
               & [[-> Hne]
                 | (res2 & body & job & n & _ & _ & _ & _ & -> & _)])])].
  - exists calls, []. rewrite app_nil_r.
    split; [done|]. split; [by left|]. by split.
  - apply ensure_calls in H1. eexists calls, _.
    split; [done|]. split; [right; left; by eauto|]. by split.
  - apply ensure_calls in H1. eexists calls, _.
    split; [done|]. split; [right; right; left; by eauto|]. by split.
  - apply ensure_calls in H1. eexists calls, _.
    split; [done|]. split; [right; right; right; by eauto|].
    split; [done|]. intros _. split; [done|]. by eauto.
Qed.

Ltac full_run Hcalls Hrest :=
  unfold loadPrefix, envOf, filesOf, createdOf, requestsOf, pollsOf;
  destruct (String.eqb _ "");
  destruct Hcalls as [-> | ->];
  destruct Hrest as [-> | [[? ->] | [(? & ? & ->) | (? & ? & ? & ->)]]];
  cbn.

(** X16: the effects of a call of [Load], whatever it returns: it sets no
    variable but [HTTP_PROXY] (and none without a proxy), reads no file
    but the key file, the schema file and the source file, in this order,
    creates no dataset but the one asked for, and that at most once, sends
    at most two requests, and leaves the polling loop at most once. A call
    that returns success has read the three files, sent two requests and
    polled to the end. *)
Theorem Load_effects (fuel : nat)
    (projectID datasetID tableID jwtFile schemaFile sourceFile proxy : string)
    (trace : list event) (r : outcome unit) :
  Load fuel w s projectID datasetID tableID jwtFile schemaFile sourceFile proxy
    = Some (trace, r) ->
  envOf trace `prefix_of`
    (if String.eqb proxy "" then [] else [("HTTP_PROXY", proxy)])
  /\ filesOf trace `prefix_of` [jwtFile; schemaFile; sourceFile]
  /\ createdOf trace `prefix_of` [datasetID]
  /\ (length (requestsOf trace) <= 2)%nat
  /\ (length (pollsOf trace) <= 1)%nat
  /\ (r = Ok () ->
      filesOf trace = [jwtFile; schemaFile; sourceFile]
      /\ length (requestsOf trace) = 2%nat
      /\ length (pollsOf trace) = 1%nat).
Proof.
  intros H.
  apply Load_trace_shape in H as (calls & rest & Hcalls & Hrest & Hpre & Hok).
  split; [|split; [|split; [|split; [|split]]]].
  - apply (omap_prefix
             (fun ev => match ev with Setenv k v => Some (k, v) | _ => None end))
      in Hpre.
    revert Hpre. full_run Hcalls Hrest; done.
  - apply (omap_prefix
             (fun ev => match ev with ReadFile f => Some f | _ => None end))
      in Hpre.
    revert Hpre. full_run Hcalls Hrest; done.
  - apply (omap_prefix
             (fun ev => match ev with CreateDataset d => Some d | _ => None end))
      in Hpre.
    revert Hpre. full_run Hcalls Hrest; try done;
      intros ->%prefix_nil_inv; apply prefix_nil.
  - apply (omap_prefix
             (fun ev => match ev with Do req => Some req | _ => None end)),
      prefix_length in Hpre.
    revert Hpre. full_run Hcalls Hrest; lia.
  - apply (omap_prefix
             (fun ev => match ev with Polled n => Some n | _ => None end)),
      prefix_length in Hpre.
    revert Hpre. full_run Hcalls Hrest; lia.
  - intros Hr. destruct (Hok Hr) as [-> (a & b & n & ->)]. clear Hrest Hok Hpre.
    unfold loadPrefix, filesOf, requestsOf, pollsOf.
    destruct (String.eqb _ ""); by destruct Hcalls as [-> | ->].
Qed.


(** X17: [Load] returns success only after the whole protocol: dataset
    step succeeded, both requests answered with 200, the job of the same
    project polled until a poll said DONE, all polls before having said
    "not done"; and the trace is exactly these steps. *)
Theorem Load_success (fuel : nat)
    (projectID datasetID tableID jwtFile schemaFile sourceFile proxy : string)
    (trace : list event) :
  Load fuel w s projectID datasetID tableID jwtFile schemaFile sourceFile proxy
    = Some (trace, Ok ()) ->
  exists s1 calls schemaBytes fields format confBytes data res loc res2 body
         job n,
    datasetCreateIfNotExists fuel (warehouse w) s datasetID
      = Some (s1, calls, Ok ())
    /\ sourceFormat sourceFile = inl format
    /\ readFile w schemaFile = inl schemaBytes
    /\ unmarshalFields w schemaBytes = inl fields
    /\ marshalConf w (jobConfOf format fields projectID datasetID tableID)
       = inl confBytes
    /\ readFile w sourceFile = inl data
    /\ clientDo w [] (initRequest projectID confBytes data) = inl res
    /\ StatusCode res = StatusOK
    /\ Location res = inl loc
    /\ clientDo w [initRequest projectID confBytes data] (dataRequest loc data)
       = inl res2
    /\ StatusCode res2 = StatusOK
    /\ Body res2 = inl body
    /\ unmarshalJob w body = inl (Some (projectID, job))
    /\ (forall j, (j < n)%nat ->
          jobDone (jobsGet w j) projectID job = Ok false)
    /\ jobDone (jobsGet w n) projectID job = Ok true
    /\ trace = loadPrefix proxy jwtFile calls schemaFile sourceFile
               ++ [Do (initRequest projectID confBytes data);
                   Do (dataRequest loc data); Polled (Datatypes.S n)].
Proof.
  intros H. apply Load_inv in H
    as [[Hne _]
       | (s1 & calls & schemaBytes & fields & format & confBytes & data
          & H1 & H2 & H3 & H4 & H5 & H6
          & [[_ Hne]
            | (res & loc & H7 & H8 & H9
               & [[_ Hne]
                 | (res2 & body & job & n & H10 & H11 & H12 & H13 & Ht
                    & Hbefore & Hlast & Hr)])])]; try done.
  exists s1, calls, schemaBytes, fields, format, confBytes, data, res, loc,
    res2, body, job, n.
  do 14 (split; [done|]). split; [|done].
  by apply pollResult_ok.
Qed.

(** X18: [Load] checks its arguments before it touches anything: with an
    empty argument or an unsupported file name it returns the error with
    an empty trace (the proxy is not set either); with valid arguments the
    proxy, when one is given, is set first and the key file is read next,
    whatever happens afterwards. *)
Theorem Load_validates_first (fuel : nat)
    (projectID datasetID tableID jwtFile schemaFile sourceFile proxy : string) :
  let run := Load fuel w s projectID datasetID tableID jwtFile schemaFile
               sourceFile proxy in
  (projectID = "" \/ datasetID = "" \/ tableID = "" \/ jwtFile = ""
   \/ schemaFile = "" \/ sourceFile = "" ->
   run = Some ([], Err (External "missing params")))
  /\ (projectID <> "" -> datasetID <> "" -> tableID <> "" -> jwtFile <> "" ->
      schemaFile <> "" -> sourceFile <> "" ->
      (sourceFormat sourceFile
         = inr (External "Unsupported source file format") ->
       run = Some ([], Err (External "Unsupported source file format")))
      /\ (forall format trace r,
            sourceFormat sourceFile = inl format ->
            run = Some (trace, r) ->
            exists rest,
              trace = (if String.eqb proxy "" then []
                       else [Setenv "HTTP_PROXY" proxy])
                      ++ ReadFile jwtFile :: rest)).
Proof.
  intros run. unfold run, Load. split.
  - intros Hm.
    assert ((String.eqb projectID "" || String.eqb datasetID ""
             || String.eqb tableID "" || String.eqb jwtFile ""
             || String.eqb schemaFile "" || String.eqb sourceFile "") = true)
      as ->; [|done].
    repeat (destruct Hm as [-> | Hm]; [by rewrite ?String.eqb_refl, ?orb_true_r|]).
    subst. by rewrite ?String.eqb_refl, ?orb_true_r.
  - intros H1 H2 H3 H4 H5 H6.
    rewrite !eqb_false_of_ne by done. cbn [orb]. split.
    + by intros ->.
    + intros format trace r Hf H. rewrite Hf in H.
      step H Hm; prim Hm; [|done..]. simplify_eq.
      destruct (String.eqb proxy "") eqn:Hproxy; cbn [negb] in H.
      all: step H Hm; prim Hm; [clear Hm|done..].
      all: step H Hm; prim Hm; cbn; eauto.
Qed.

End LoadProps.


(** ** The further properties on the sample inputs *)

Lemma toRows_record_keys_witness :
  toRows (float64 := Z) (composite := Empty_set) integralParseFloat
    sampleSchema [sampleRow1; [CString "2"]]
  = Ok [sampleRecord; <["id" := VInt 2]> ∅]
  /\ Forall2
       (fun (row : TableRow (composite := Empty_set))
            (r : gmap string (value (float64 := Z) (composite := Empty_set))) =>
          (length row <= length sampleSchema)%nat
          /\ dom r = list_to_set
                       (name <$> take (length row) (fieldNames sampleSchema)))
       [sampleRow1; [CString "2"]] [sampleRecord; <["id" := VInt 2]> ∅].
Proof.
  assert (H : toRows (float64 := Z) (composite := Empty_set)
                integralParseFloat sampleSchema [sampleRow1; [CString "2"]]
              = Ok [sampleRecord; <["id" := VInt 2]> ∅])
    by (vm_compute; reflexivity).
  split; [exact H|].
  exact (toRows_record_keys integralParseFloat sampleSchema _ _ H).
Defined.

Lemma toRows_panics_witness :
  Forall (fun cell : cellValue (composite := unit) => cell = CNil)
    [CNil; CNil; CNil]
  /\ (length sampleSchema < 3)%nat
  /\ toRows (float64 := Z) (composite := unit) integralParseFloat sampleSchema
       [[CNil; CNil; CNil]] = Panic
  /\ decodeCell (float64 := Z) (composite := unit) integralParseFloat
       (fieldNames sampleSchema) 0 (CComposite ()) ∅ = Panic.
Proof.
  assert (Hnil : Forall (fun cell : cellValue (composite := unit) => cell = CNil)
                   [CNil; CNil; CNil]) by (repeat constructor).
  assert (Hlen : (length sampleSchema < 3)%nat) by (cbn; lia).
  destruct (toRows_panics (float64 := Z) (composite := unit)
              integralParseFloat sampleSchema [] (fieldNames sampleSchema) 0
              (mkFieldType "id" "INTEGER") () ∅) as (_ & Hlong & Hcell).
  split; [exact Hnil|]. split; [exact Hlen|].
  split; [exact (Hlong _ Hnil Hlen)|].
  apply Hcell; [reflexivity|in_list].
Defined.

Lemma toRows_first_failure_witness :
  Forall (fun row : TableRow (composite := Empty_set) =>
            exists r : gmap string (value (float64 := Z) (composite := Empty_set)),
            decodeCells (float64 := Z) (composite := Empty_set)
              integralParseFloat (fieldNames sampleSchema) 0 row ∅ = Ok r)
    [sampleRow1]
  /\ toRows (float64 := Z) (composite := Empty_set) integralParseFloat
       sampleSchema ([sampleRow1] ++ [CString "x"; CNil] :: [sampleRow3])
     = Err (InvalidValue "id" "x" (NumError "ParseInt" "x" ErrSyntax)).
Proof.
  assert (Hgood : Forall (fun row : TableRow (composite := Empty_set) =>
            exists r : gmap string (value (float64 := Z) (composite := Empty_set)),
            decodeCells (float64 := Z) (composite := Empty_set)
              integralParseFloat (fieldNames sampleSchema) 0 row ∅ = Ok r)
            [sampleRow1]).
  { constructor; [|constructor]. exists sampleRecord.
    vm_compute. reflexivity. }
  split; [exact Hgood|].
  exact (proj1 (toRows_first_failure integralParseFloat sampleSchema
                  [sampleRow1] [CString "x"; CNil] [sampleRow3] Hgood)
           _ eq_refl).
Defined.

Lemma Dump_overshoot_witness :
  queryDo (overshootBigQuery (composite := Empty_set)) "p"
    (queryConf "SELECT 1" 0 false) = inl overshootResponse
  /\ (toInt (TotalRows (overshootResponse (composite := Empty_set)))
      < Z.of_nat (length (Rows (overshootResponse (composite := Empty_set)))))%Z
  /\ forall fuel,
       Dump (float64 := Z) (composite := Empty_set) integralParseFloat
         integralFormatFloat noComposite constantJSON constantJSON
         keysInMapOrder plainField fuel overshootBigQuery noFaults "p"
         "key.json" "out.json" "json" "" "SELECT 1" "" false false 0 false
       = None.
Proof.
  assert (Hne : forall a b, String a b <> "") by (intros a b; discriminate).
  assert (Hlt : (toInt (TotalRows (overshootResponse (composite := Empty_set)))
                 < Z.of_nat (length (Rows (overshootResponse
                                             (composite := Empty_set)))))%Z)
    by (vm_compute; reflexivity).
  split; [reflexivity|]. split; [exact Hlt|]. intros fuel.
  apply (proj2 (Dump_overshoot (float64 := Z) (composite := Empty_set)
                  integralParseFloat integralFormatFloat noComposite
                  constantJSON constantJSON keysInMapOrder plainField
                  overshootBigQuery noFaults "p" "key.json" "out.json" "json"
                  "" "SELECT 1" "" false false 0 false overshootResponse
                  eq_refl Hlt) fuel "json" "" sampleSchema "job_3");
    try apply Hne; try reflexivity.
  intros reqs req. exists (mkPageResponse [] [] ""). split; reflexivity.
Defined.

Lemma Dump_file_effects_witness :
  Dump (float64 := Z) (composite := Empty_set) integralParseFloat
    integralFormatFloat noComposite constantJSON constantJSON keysInMapOrder
    plainField 3 sampleBigQuery noFaults "p" "key.json" "out.json" "json" ""
    "SELECT 1" "" false false 0 false
  = Some (sampleRequests,
          [FsCreate "out.json"; FsAppend "out.json" ("[]" +:+ newline)],
          Ok ())
  /\ Forall (fun op => opPath op = "out.json")
       [FsCreate "out.json"; FsAppend "out.json" ("[]" +:+ newline)].
Proof.
  assert (H : Dump (float64 := Z) (composite := Empty_set) integralParseFloat
                integralFormatFloat noComposite constantJSON constantJSON
                keysInMapOrder plainField 3 sampleBigQuery noFaults "p"
                "key.json" "out.json" "json" "" "SELECT 1" "" false false 0
                false
              = Some (sampleRequests,
                      [FsCreate "out.json";
                       FsAppend "out.json" ("[]" +:+ newline)],
                      Ok ()))
    by (vm_compute; reflexivity).
  split; [exact H|].
  exact (proj1 (Dump_file_effects _ _ _ _ _ _ _ _ _ _ _ _ _ _ _ _ _ _ _ _ _
                  _ _ _ H)).
Defined.

Lemma dumpJSON_no_partial_file_witness :
  createErr noFaults = None
  /\ exists text,
       constantJSON [sampleRecord (float64 := Z) (composite := Empty_set)]
       = inl text
       /\ applyOps ∅
            (dumpJSON constantJSON constantJSON noFaults
               [sampleRecord (float64 := Z) (composite := Empty_set)]
               "out.json" true).1 !! "out.json"
          = Some text.
Proof.
  split; [reflexivity|].
  exact (proj2 (dumpJSON_no_partial_file (float64 := Z)
                  (composite := Empty_set) constantJSON constantJSON noFaults
                  [sampleRecord] "out.json" true ∅) eq_refl).
Defined.

Lemma dumpCSV_errors_dropped_witness :
  [sampleRecord (float64 := Z) (composite := Empty_set)] <> []
  /\ createErr noFaults = None
  /\ validDelim (csvComma newline) = false
  /\ dumpCSV (float64 := Z) (composite := Empty_set) integralFormatFloat
       noComposite keysInMapOrder plainField noFaults [sampleRecord]
       "out.csv" newline true
     = ([FsCreate "out.csv"], Ok ()).
Proof.
  assert (Hne : [sampleRecord (float64 := Z) (composite := Empty_set)] <> [])
    by discriminate.
  split; [exact Hne|]. split; [reflexivity|]. split; [reflexivity|].
  exact (proj1 (proj1 (proj2 (dumpCSV_errors_dropped (float64 := Z)
                  (composite := Empty_set) integralFormatFloat noComposite
                  keysInMapOrder plainField noFaults [sampleRecord] "out.csv"
                  newline true ∅ Hne eq_refl)) eq_refl)).
Defined.

Lemma csvLines_shape_witness :
  (forall m : gmap string (value (float64 := Z) (composite := Empty_set)),
     keysInMapOrder m ≡ₚ (map_to_list m).*1)
  /\ exists lines,
       csvLines integralFormatFloat noComposite keysInMapOrder
         (sampleRecord (float64 := Z) (composite := Empty_set)
          :: tail sampleRecords) true = Ok lines
       /\ length lines = 4%nat
       /\ Forall (fun l => length l = 2%nat) lines.
Proof.
  split; [intros m; reflexivity|].
  destruct (csvLines_shape (float64 := Z) (composite := Empty_set)
              integralFormatFloat noComposite keysInMapOrder
              (fun m => reflexivity _) sampleRecord (tail sampleRecords) true)
    as (lines & Hlines & Hlen & Hwidth & _).
  exists lines. split; [exact Hlines|]. split; [exact Hlen|]. exact Hwidth.
Defined.

Lemma Dump_other_format_options_witness :
  ToLower "JSON" = "json"
  /\ Dump (float64 := Z) (composite := Empty_set) integralParseFloat
       integralFormatFloat noComposite constantJSON constantJSON
       keysInMapOrder plainField 3 sampleBigQuery noFaults "p" "key.json"
       "out.json" "JSON" "," "SELECT 1" "" false false 0 false
     = Dump integralParseFloat integralFormatFloat noComposite constantJSON
         constantJSON keysInMapOrder plainField 3 sampleBigQuery noFaults "p"
         "key.json" "out.json" "JSON" "tab" "SELECT 1" "" false true 0 false.
Proof.
  split; [reflexivity|].
  exact (proj1 (Dump_other_format_options (float64 := Z)
                  (composite := Empty_set) integralParseFloat
                  integralFormatFloat noComposite constantJSON constantJSON
                  keysInMapOrder plainField 3 sampleBigQuery noFaults "p"
                  "key.json" "out.json" "JSON" "," "tab" "SELECT 1" "" false
                  false false true 0 false) eq_refl).
Defined.

Lemma formatValue_decodes_back_witness :
  [mkFieldType "id" "INTEGER"] !! 0%nat = Some (mkFieldType "id" "INTEGER")
  /\ (- 2 ^ 63 <= -42 < 2 ^ 63)%Z
  /\ decodeCell (float64 := Z) (composite := Empty_set) integralParseFloat
       [mkFieldType "id" "INTEGER"] 0
       (CString (formatValue integralFormatFloat noComposite (VInt (-42)))) ∅
     = Ok (<["id" := VInt (-42)]> ∅).
Proof.
  assert (Hrange : (- 2 ^ 63 <= -42 < 2 ^ 63)%Z) by lia.
  split; [reflexivity|]. split; [exact Hrange|].
  exact (proj1 (formatValue_decodes_back (float64 := Z)
                  (composite := Empty_set) integralParseFloat
                  integralFormatFloat noComposite
                  [mkFieldType "id" "INTEGER"] 0 (mkFieldType "id" "INTEGER")
                  ∅ eq_refl) (-42)%Z (or_introl eq_refl) Hrange).
Defined.


Lemma datasetCreateIfNotExists_failures_witness :
  datasetCreateIfNotExists 1 refusing () "logs"
  = Some ((), ["logs"], Err (External "Access Denied"))
  /\ insertDo refusing () "logs" = ((), Some (External "Access Denied")).
Proof.
  split; [reflexivity|].
  destruct (datasetCreateIfNotExists_failures refusing () () "logs" 1
              ["logs"] (External "Access Denied") eq_refl)
    as [(_ & Hcalls & _) | [(_ & Hcalls & _) | [_ Hinsert]]].
  - discriminate Hcalls.
  - discriminate Hcalls.
  - exact Hinsert.
Defined.

Lemma waitJob_returns_iff_witness :
  waitJob 5 sampleJobs "p" "job_1" 0 = Some (3%nat, Ok ())
  /\ exists st,
       sampleJobs (pred 3) = inl (mkJob (Some st))
       /\ State st = "DONE" /\ StatusErrors st = [].
Proof.
  split; [reflexivity|].
  exact (proj2 (waitJob_returns_iff sampleJobs "p" "job_1" 5 3 (Ok ()))
           eq_refl).
Defined.

Lemma sourceFormat_suffix_witness :
  (exists stem, "rows.csv" = stem +:+ ".csv")
  /\ Loader.sourceFormat "rows.csv" = inl "CSV".
Proof.
  assert (H : exists stem, "rows.csv" = stem +:+ ".csv")
    by (exists "rows"; reflexivity).
  split; [exact H|].
  exact (proj2 (proj1 (proj2 (sourceFormat_suffix "rows.csv"))) H).
Defined.

Lemma Load_progress_witness :
  Loader.Load 5 sampleWorld ["sales"] "p" "logs" "events" "key.json"
    "missing.json" "rows.csv" ""
  = Some ([Loader.ReadFile "key.json"; Loader.CreateDataset "logs";
           Loader.ReadFile "missing.json"],
          Err (Wrapped "Error reading schema" (External "no such file")))
  /\ exists calls,
       (calls = [] \/ calls = ["logs"])
       /\ [Loader.ReadFile "key.json"; Loader.CreateDataset "logs";
           Loader.ReadFile "missing.json"]
          `prefix_of` Loader.loadPrefix "" "key.json" calls "missing.json"
                        "rows.csv".
Proof.
  assert (H : Loader.Load 5 sampleWorld ["sales"] "p" "logs" "events"
                "key.json" "missing.json" "rows.csv" ""
              = Some ([Loader.ReadFile "key.json"; Loader.CreateDataset "logs";
                       Loader.ReadFile "missing.json"],
                      Err (Wrapped "Error reading schema"
                             (External "no such file"))))
    by (vm_compute; reflexivity).
  split; [exact H|].
  destruct (Load_progress sampleWorld ["sales"] 5 "p" "logs" "events"
              "key.json" "missing.json" "rows.csv" "" _ _ H)
    as [[_ Hleft]
       | (s1 & calls & schemaBytes & fields & format & confBytes & data
          & _ & _ & Hread & _)].
  - exact Hleft.
  - discriminate Hread.
Defined.

Lemma Load_effects_witness :
  Loader.Load 5 sampleWorld ["sales"] "p" "logs" "events" "key.json"
    "schema.json" "rows.csv" "" = Some (sampleTrace, Ok ())
  /\ Loader.createdOf sampleTrace `prefix_of` ["logs"]
  /\ Loader.filesOf sampleTrace = ["key.json"; "schema.json"; "rows.csv"].
Proof.
  assert (H : Loader.Load 5 sampleWorld ["sales"] "p" "logs" "events"
                "key.json" "schema.json" "rows.csv" ""
              = Some (sampleTrace, Ok ()))
    by (vm_compute; reflexivity).
  split; [exact H|].
  destruct (Load_effects sampleWorld ["sales"] 5 "p" "logs" "events"
              "key.json" "schema.json" "rows.csv" "" _ _ H)
    as (_ & _ & Hcreated & _ & _ & Hok).
  split; [exact Hcreated|]. exact (proj1 (Hok eq_refl)).
Defined.

Lemma Load_success_witness :
  Loader.Load 5 sampleWorld ["sales"] "p" "logs" "events" "key.json"
    "schema.json" "rows.csv" "" = Some (sampleTrace, Ok ())
  /\ exists job n, jobDone (Loader.jobsGet sampleWorld n) "p" job = Ok true.
Proof.
  assert (H : Loader.Load 5 sampleWorld ["sales"] "p" "logs" "events"
                "key.json" "schema.json" "rows.csv" ""
              = Some (sampleTrace, Ok ()))
    by (vm_compute; reflexivity).
  split; [exact H|].
  destruct (Load_success sampleWorld ["sales"] 5 "p" "logs" "events"
              "key.json" "schema.json" "rows.csv" "" _ H)
    as (s1 & calls & schemaBytes & fields & format & confBytes & data & res
        & loc & res2 & body & job & n & _ & _ & _ & _ & _ & _ & _ & _ & _ & _
        & _ & _ & _ & _ & Hdone & _).
  exists job, n. exact Hdone.
Defined.

Lemma Load_validates_first_witness :
  Loader.Load 5 sampleWorld ["sales"] "p" "logs" "" "key.json" "schema.json"
    "rows.csv" "http://proxy:3128"
  = Some ([], Err (External "missing params")).
Proof.
  exact (proj1 (Load_validates_first sampleWorld ["sales"] 5 "p" "logs" ""
                  "key.json" "schema.json" "rows.csv" "http://proxy:3128")
           (or_intror (or_intror (or_introl eq_refl)))).
Defined.
